(** * ContentGenerator: the generation-request lifecycle, the history cache
      and the download file name of [frontend/src/components/ContentGenerator.tsx]

    The React component keeps seven [useState] cells and reacts to user
    events and to the settlement of its two [fetch] calls.  The component is
    embedded as a transition system: every event handler is a function on a
    [World] (the rendered state, the requests in flight and the trace of
    observable effects), and an [async] function is cut at its [await] into
    the part that runs when it is called and the part that runs when the
    awaited promise settles.  Handlers run one at a time, each against the
    state left by the one before it; the clock readings of [Date.now()] and
    the outcomes of the fetches come with the events.  Strings are sequences
    of UTF-16 code units and numbers are binary64 values;
    [String.prototype.toLowerCase] is a parameter. *)

From Stdlib Require Import Bool List NArith ZArith Lia SpecFloat.
From Stdlib Require Import Strings.Byte.
Import ListNotations.

Local Open Scope list_scope.

(** ** JavaScript strings and numbers

    A string is a sequence of UTF-16 code units, each given by its number.
    A literal stands for the code units of its characters. *)
Inductive jsstring : Set :=
| Empty
| Unit (u : N) (rest : jsstring).

Fixpoint of_bytes (l : list byte) : jsstring :=
  match l with
  | [] => Empty
  | b :: r => Unit (Byte.to_N b) (of_bytes r)
  end.

Fixpoint to_bytes (s : jsstring) : option (list byte) :=
  match s with
  | Empty => Some []
  | Unit u r =>
      match Byte.of_N u, to_bytes r with
      | Some b, Some l => Some (b :: l)
      | _, _ => None
      end
  end.

Declare Scope js_scope.
Delimit Scope js_scope with js.
Bind Scope js_scope with jsstring.
String Notation jsstring of_bytes to_bytes : js_scope.
Local Open Scope js_scope.

Module Js.

(** [a + b] on strings. *)
Fixpoint append (s t : jsstring) : jsstring :=
  match s with
  | Empty => t
  | Unit u r => Unit u (append r t)
  end.

(** [s.length]. *)
Fixpoint length (s : jsstring) : nat :=
  match s with
  | Empty => O
  | Unit _ r => S (length r)
  end.

(** [a === b] on strings. *)
Fixpoint eqb (s t : jsstring) : bool :=
  match s, t with
  | Empty, Empty => true
  | Unit u r, Unit v q => (u =? v)%N && eqb r q
  | _, _ => false
  end.

Fixpoint units (s : jsstring) : list N :=
  match s with
  | Empty => []
  | Unit u r => u :: units r
  end.

(** The class [\s] of a regular expression, which is also what [trim]
    strips: the white space and line terminator code points TAB, LF, VT, FF,
    CR, SPACE, U+00A0, U+1680, U+2000..U+200A, U+2028, U+2029, U+202F,
    U+205F, U+3000 and U+FEFF. *)
Definition is_space (u : N) : bool :=
  ((9 <=? u) && (u <=? 13)
   || (u =? 32) || (u =? 160) || (u =? 5760)
   || (8192 <=? u) && (u <=? 8202)
   || (u =? 8232) || (u =? 8233) || (u =? 8239) || (u =? 8287)
   || (u =? 12288) || (u =? 65279))%N.

(** The replacement ['-']. *)
Definition hyphen : N := 45.

(** [s.replace(/\s+/g, '-')]: the scan emits the replacement once when it
    enters a match of [\s+]; the match is greedy, so the rest of the run
    ([in_run = true]) is consumed without output. *)
Fixpoint replace_ws_from (in_run : bool) (s : jsstring) : jsstring :=
  match s with
  | Empty => Empty
  | Unit u r =>
      if is_space u
      then (if in_run then replace_ws_from true r
            else Unit hyphen (replace_ws_from true r))
      else Unit u (replace_ws_from false r)
  end.

Definition replace_ws (s : jsstring) : jsstring := replace_ws_from false s.

(** Truthiness of a string: only the empty string is falsy. *)
Definition truthy (s : jsstring) : bool :=
  match s with Empty => false | Unit _ _ => true end.

(** [String.prototype.trim]. *)
Fixpoint trimStart (s : jsstring) : jsstring :=
  match s with
  | Empty => Empty
  | Unit u r => if is_space u then trimStart r else s
  end.

Fixpoint rev_string (acc s : jsstring) : jsstring :=
  match s with
  | Empty => acc
  | Unit u r => rev_string (Unit u acc) r
  end.

Definition trimEnd (s : jsstring) : jsstring :=
  rev_string Empty (trimStart (rev_string Empty s)).

Definition trim (s : jsstring) : jsstring := trimEnd (trimStart s).

Fixpoint take (n : nat) (s : jsstring) : jsstring :=
  match n, s with
  | S m, Unit u r => Unit u (take m r)
  | _, _ => Empty
  end.

Fixpoint drop (n : nat) (s : jsstring) : jsstring :=
  match n, s with
  | S m, Unit _ r => drop m r
  | _, _ => s
  end.

(** [String.prototype.substring(a, b)] for natural indices: the arguments are
    swapped when [a > b] and clamped to the length of the string. *)
Definition substring (a b : nat) (s : jsstring) : jsstring :=
  take (Nat.max a b - Nat.min a b) (drop (Nat.min a b) s).

(** A natural number in a template literal: its decimal digits, most
    significant first. They are produced from the least significant one;
    [fuel] bounds their count. *)
Fixpoint digits_from (fuel : nat) (n : N) (acc : jsstring) : jsstring :=
  match fuel with
  | O => acc
  | S fuel' =>
      let acc' := Unit (48 + n mod 10) acc in
      if (n / 10 =? 0)%N then acc' else digits_from fuel' (n / 10) acc'
  end.

Definition of_number (n : N) : jsstring :=
  digits_from (S (N.to_nat (N.log2 n))) n Empty.

(** A field of a parsed JSON body where the component does not care for its
    type: absent ([undefined]), a string, or any other value, of which the
    component sees the truthiness and, through [new Error(...)], the text
    that [ToString] gives. *)
Inductive Value :=
| Undefined
| Str (s : jsstring)
| Other (is_truthy : bool) (text : jsstring).

Definition truthy_value (v : Value) : bool :=
  match v with
  | Undefined => false
  | Str s => truthy s
  | Other b _ => b
  end.

(** The [message] of [new Error(v)]. *)
Definition to_text (v : Value) : jsstring :=
  match v with
  | Undefined => Empty
  | Str s => s
  | Other _ text => text
  end.

(** The [message] of [new Error(v || fallback)] for a string [fallback]. *)
Definition error_message_or (v : Value) (fallback : jsstring) : jsstring :=
  if truthy_value v then to_text v else fallback.

(** A number: an IEEE 754 binary64 value. *)
Definition number : Set := spec_float.

(** The number holding an integer (exactly, up to 2^53 in magnitude). *)
Definition of_Z (z : Z) : number := binary_normalize 53 1024 z 0 false.

(** [a / b] on numbers. *)
Definition div (a b : number) : number := SFdiv 53 1024 a b.

(** [x >= 0] on numbers. *)
Definition ge_zero (x : number) : bool := SFleb (S754_zero false) x.

(** [x < 0] on numbers. *)
Definition lt_zero (x : number) : bool := SFltb x (S754_zero false).


Definition lower_ascii_unit (u : N) : N :=
  if ((65 <=? u) && (u <=? 90))%N then (u + 32)%N else u.

Fixpoint lower_ascii (s : jsstring) : jsstring :=
  match s with
  | Empty => Empty
  | Unit u r => Unit (lower_ascii_unit u) (lower_ascii r)
  end.

End Js.

Infix "++" := Js.append (right associativity, at level 60) : js_scope.

(** The file name of a download in the words of the specification: the text
    is cut into its maximal runs of whitespace and of non-whitespace, and
    every whitespace run becomes one hyphen. *)
Module FilenameSpec.


Definition render_run (r : bool * jsstring) : jsstring :=
  if fst r then "-" else snd r.

Fixpoint render (l : list (bool * jsstring)) : jsstring :=
  match l with
  | [] => ""
  | r :: rest => render_run r ++ render rest
  end.






End FilenameSpec.

(** ** Data model *)

(** An item of [GET /api/content]; the component reads [id], [topic],
    [content] and [created_at]. *)
Record HistoryItem := mkHistoryItem {
  item_id : N;
  item_topic : jsstring;
  item_content : jsstring;
  item_created_at : jsstring
}.

(** The object handed to [JSON.stringify] for the POST body: [{ topic }]. *)
Record GenerationRequest := mkGenerationRequest {
  req_topic : jsstring
}.

(** The parsed body of [POST /api/generate-content]. [status] is only
    compared with a string, so a status that is absent or not a string reads
    as [None]; [content] is stored as it is, [None] for [undefined];
    [message] goes through [||] and [new Error]. *)
Record GenerationResult := mkGenerationResult {
  res_status : option jsstring;
  res_content : option jsstring;
  res_message : Js.Value
}.

(** The parsed body of [GET /api/content]. *)
Record HistoryReply := mkHistoryReply {
  hist_status : option jsstring;
  hist_data : list HistoryItem
}.

(** A thrown value, as the [catch] clauses look at it. *)
Inductive Thrown :=
| ErrorObject (message : jsstring)
| NotAnError.

(** How [await response.json()] followed by the read of [data.status] ends:
    the promise rejects, the body is [null] (the property read throws a
    [TypeError] with the engine's message), or there is a value to read. *)
Inductive Body (A : Type) :=
| BodyRejects (e : Thrown)
| BodyNull (type_error_message : jsstring)
| BodyValue (data : A).
Arguments BodyRejects {A} e.
Arguments BodyNull {A} type_error_message.
Arguments BodyValue {A} data.

(** How [await fetch(...)] ends. *)
Inductive Settled (A : Type) :=
| Rejected (e : Thrown)
| Responded (status : N) (body : Body A).
Arguments Rejected {A} e.
Arguments Responded {A} status body.

(** [response.ok] of the Fetch API: the status is in 200..299. *)
Definition response_ok (status : N) : bool :=
  ((200 <=? status) && (status <=? 299))%N.

Definition status_is_success (status : option jsstring) : bool :=
  match status with
  | Some s => Js.eqb s "success"
  | None => false
  end.

(** The seven [useState] cells of [ContentGenerator]. [content] is typed
    [string] but receives [data.content] of an untyped body, so it can hold
    [undefined] ([None]). [generationTime] is a number. *)
Record State := mkState {
  topic : jsstring;
  content : option jsstring;
  loading : bool;
  error : jsstring;
  generationTime : Js.number;
  savedContents : list HistoryItem;
  showHistory : bool
}.

Definition setTopic (v : jsstring) (s : State) : State :=
  mkState v (content s) (loading s) (error s) (generationTime s)
          (savedContents s) (showHistory s).
Definition setContent (v : option jsstring) (s : State) : State :=
  mkState (topic s) v (loading s) (error s) (generationTime s)
          (savedContents s) (showHistory s).
Definition setLoading (v : bool) (s : State) : State :=
  mkState (topic s) (content s) v (error s) (generationTime s)
          (savedContents s) (showHistory s).
Definition setError (v : jsstring) (s : State) : State :=
  mkState (topic s) (content s) (loading s) v (generationTime s)
          (savedContents s) (showHistory s).
Definition setGenerationTime (v : Js.number) (s : State) : State :=
  mkState (topic s) (content s) (loading s) (error s) v
          (savedContents s) (showHistory s).
Definition setSavedContents (v : list HistoryItem) (s : State) : State :=
  mkState (topic s) (content s) (loading s) (error s) (generationTime s)
          v (showHistory s).
Definition setShowHistory (v : bool) (s : State) : State :=
  mkState (topic s) (content s) (loading s) (error s) (generationTime s)
          (savedContents s) v.

(** What the component does to the outside. *)
Inductive Effect :=
| FetchPost (req : GenerationRequest)
| FetchGet
| ToastSuccess (msg : jsstring)
| ToastError (msg : jsstring)
| ToastInfo (msg : jsstring)
| ConsoleError (label : jsstring) (e : Thrown)
| Download (filename : jsstring) (blob : option jsstring).

Definition is_network_call (e : Effect) : bool :=
  match e with
  | FetchPost _ | FetchGet => true
  | _ => false
  end.

(** A generation request in flight: the [startTime] its call captured and
    the body it sent. *)
Record Ticket := mkTicket {
  startTime : Z;
  sent : GenerationRequest
}.

Record World := mkWorld {
  ui : State;
  pendingGen : list Ticket;
  pendingHist : nat;
  trace : list Effect
}.

Definition render (f : State -> State) (w : World) : World :=
  mkWorld (f (ui w)) (pendingGen w) (pendingHist w) (trace w).

Definition emit (e : Effect) (w : World) : World :=
  mkWorld (ui w) (pendingGen w) (pendingHist w) (trace w ++ [e])%list.

Definition network_calls (w : World) : list Effect :=
  filter is_network_call (trace w).

(** ** History cache: [fetchSavedContents] *)

(** Up to the [await fetch]. *)
Definition fetchSavedContents_call (w : World) : World :=
  let w := emit FetchGet w in
  mkWorld (ui w) (pendingGen w) (S (pendingHist w)) (trace w).

(** From the settlement of the fetch to the end. The HTTP status of the
    response is not looked at. *)
Definition fetchSavedContents_settle (o : Settled HistoryReply) (w : World)
  : World :=
  let failed e := emit (ConsoleError "Failed to fetch history:" e) w in
  match o with
  | Rejected e => failed e
  | Responded _ (BodyRejects e) => failed e
  | Responded _ (BodyNull msg) => failed (ErrorObject msg)
  | Responded _ (BodyValue data) =>
      if status_is_success (hist_status data)
      then render (setSavedContents (hist_data data)) w
      else w
  end.

(** ** Request controller: [generateContent] *)

(** Up to the [await fetch]; [Date.now()] reads [now]. The request body is
    the [topic] cell as it is. *)
Definition generateContent_call (now : Z) (w : World) : World :=
  let startTime := now in
  let w := render (setLoading true) w in
  let w := render (setError "") w in
  let req := mkGenerationRequest (topic (ui w)) in
  let w := emit (FetchPost req) w in
  mkWorld (ui w) (pendingGen w ++ [mkTicket startTime req])%list
          (pendingHist w) (trace w).

(** How the [try] block ends. *)
Inductive Completion :=
| Normal (w : World)
| Throws (e : Thrown) (w : World).

(** [(Date.now() - startTime) / 1000] where [Date.now()] reads [now]. Both
    readings are integral time values, which a number holds exactly, and the
    difference of two numbers is the number nearest to their exact
    difference: the number of the integer [now - startTime]. The quotient is
    the division of numbers. *)
Definition elapsed_seconds (startTime now : Z) : Js.number :=
  Js.div (Js.of_Z (now - startTime)) (Js.of_Z 1000).

(** The [try] block from the settlement of the fetch on; [Date.now()] on the
    success branch reads [now]. *)
Definition generateContent_try (startTime : Z) (o : Settled GenerationResult)
    (now : Z) (w : World) : Completion :=
  match o with
  | Rejected e => Throws e w
  | Responded status body =>
      if negb (response_ok status)
      then Throws (ErrorObject ("API request failed with status "
                                ++ Js.of_number status)) w
      else
        match body with
        | BodyRejects e => Throws e w
        | BodyNull msg => Throws (ErrorObject msg) w
        | BodyValue data =>
            if status_is_success (res_status data)
            then
              let w := render (setContent (res_content data)) w in
              let w := render (setGenerationTime
                                 (elapsed_seconds startTime now)) w in
              let w := emit (ToastSuccess "Content generated successfully!") w in
              Normal (fetchSavedContents_call w)
            else
              Throws (ErrorObject (Js.error_message_or
                                     (res_message data)
                                     "Unknown error occurred")) w
        end
  end.

(** The [catch] clause. *)
Definition generateContent_catch (c : Completion) : World :=
  match c with
  | Normal w => w
  | Throws err w =>
      let errorMessage :=
        match err with
        | ErrorObject message => message
        | NotAnError => "Failed to generate content"
        end in
      let w := render (setError errorMessage) w in
      emit (ToastError errorMessage) w
  end.

(** The [finally] clause. *)
Definition generateContent_finally (w : World) : World :=
  render (setLoading false) w.

Definition generateContent_settle (startTime : Z)
    (o : Settled GenerationResult) (now : Z) (w : World) : World :=
  generateContent_finally
    (generateContent_catch (generateContent_try startTime o now w)).

(** ** The two ways to invoke the generation, with their guards *)

(** [disabled={loading || !topic}] on the button. *)
Definition generate_disabled (s : State) : bool :=
  loading s || negb (Js.truthy (topic s)).

Definition onClickGenerate (now : Z) (w : World) : World :=
  if generate_disabled (ui w) then w else generateContent_call now w.

(** [e.key === 'Enter' && !loading && topic && generateContent()]. *)
Definition onKeyPress (key : jsstring) (now : Z) (w : World) : World :=
  if Js.eqb key "Enter" && negb (loading (ui w)) && Js.truthy (topic (ui w))
  then generateContent_call now w
  else w.

(** ** Other handlers *)

Definition onChangeTopic (v : jsstring) (w : World) : World :=
  render (setTopic v) w.

Definition onToggleHistory (w : World) : World :=
  render (fun s => setShowHistory (negb (showHistory s)) s) w.

Definition loadFromHistory (item : HistoryItem) (w : World) : World :=
  let w := render (setTopic (item_topic item)) w in
  let w := render (setContent (Some (item_content item))) w in
  let w := render (setShowHistory false) w in
  emit (ToastInfo "Content loaded from history") w.

(** [savedContents.slice(0, 5)]. *)
Definition displayed_history (s : State) : list HistoryItem :=
  firstn 5 (savedContents s).

(** [content ? ... : ...]: the toolbar with the download button is rendered
    only for a truthy [content]. *)
Definition content_shown (s : State) : bool :=
  match content s with
  | Some c => Js.truthy c
  | None => false
  end.

(** ** The events of the component

    The history list leaves the page through an exit animation
    ([AnimatePresence]): once [showHistory] is false, the entries of the
    list's last render stay clickable while the animation runs.
    [ClickHistoryItem] is a click on the [i]-th entry of the open panel;
    [ClickClosingHistoryItem] is a click on an entry of the closing panel,
    and the item that entry holds comes with the event. *)

Inductive Event :=
| ChangeTopic (v : jsstring)
| KeyPress (key : jsstring) (now : Z)
| ClickGenerate (now : Z)
| ToggleHistory
| ClickHistoryItem (i : nat)
| ClickClosingHistoryItem (item : HistoryItem)
| ClickDownload
| GenerationSettled (i : nat) (o : Settled GenerationResult) (now : Z)
| HistorySettled (o : Settled HistoryReply).

Fixpoint remove_nth {A : Type} (i : nat) (l : list A) : list A :=
  match l, i with
  | [], _ => []
  | _ :: r, O => r
  | x :: r, S j => x :: remove_nth j r
  end.

Definition take_ticket (i : nat) (w : World) : World :=
  mkWorld (ui w) (remove_nth i (pendingGen w)) (pendingHist w) (trace w).

Definition initial_state : State :=
  mkState "" (Some "") false "" (Js.of_Z 0) [] false.

(** After the first render the mount effect calls [fetchSavedContents]. *)
Definition mounted : World :=
  fetchSavedContents_call (mkWorld initial_state [] 0 []).

(** The loading flag counts the generation requests in flight, and the error
    text is empty while one is. *)
Definition lifecycle_invariant (w : World) : Prop :=
  if loading (ui w)
  then length (pendingGen w) = 1%nat /\ error (ui w) = ""
  else pendingGen w = [].

(** ** Words of the specification used to state the claims *)

(** Empty or whitespace-only. *)
Definition is_blank (s : jsstring) : bool := negb (Js.truthy (Js.trim s)).

(** No leading or trailing whitespace. *)
Definition is_trimmed (s : jsstring) : bool := Js.eqb (Js.trim s) s.

Definition dispatched (req : GenerationRequest) (w : World) : Prop :=
  In (FetchPost req) (trace w).

(** The outcomes on which [fetchSavedContents] calls [setSavedContents]: a
    body that parses and has [status] equal to [success]. The HTTP status of
    the response plays no part. *)
Definition body_says_success (o : Settled HistoryReply) : bool :=
  match o with
  | Responded _ (BodyValue data) => status_is_success (hist_status data)
  | _ => false
  end.

(** A failed refresh in the words of the claim: a network error, or any
    outcome other than a successful (2xx) response with [status] equal to
    [success]. *)
Definition refresh_failed (o : Settled HistoryReply) : bool :=
  match o with
  | Responded status (BodyValue data) =>
      negb (response_ok status && status_is_success (hist_status data))
  | _ => true
  end.



(** A message that is a string, or that is absent or falsy. *)
Definition message_is_text (v : Js.Value) : bool :=
  match v with
  | Js.Other true _ => false
  | _ => true
  end.

(** What is surfaced to the user besides the rendered state: the toasts. *)
Definition is_toast (e : Effect) : bool :=
  match e with
  | ToastSuccess _ | ToastError _ | ToastInfo _ => true
  | _ => false
  end.

Definition toasts (w : World) : list Effect := filter is_toast (trace w).

(** ** Sample worlds *)

(** The user has typed [v] into the topic field of the mounted component. *)
Definition typed (v : jsstring) : World := onChangeTopic v mounted.

(** ... and has then clicked the generate button at time [t0]. *)
Definition clicked (v : jsstring) (t0 : Z) : World :=
  onClickGenerate t0 (typed v).

(** ** Output actions: [copyToClipboard] and [shareContent] *)

(** Calls into the browser besides [fetch]. *)
Inductive PlatformCall :=
| ClipboardWriteText (text : option jsstring)
| NavigatorShare (title text : jsstring).

(** The component together with the browser calls it has made and the
    [navigator.share] promises not yet settled. *)
Record Page := mkPage {
  component : World;
  platform : list PlatformCall;
  pendingShare : nat
}.

Definition copyToClipboard (p : Page) : Page :=
  let w := component p in
  mkPage (emit (ToastSuccess "Content copied to clipboard!") w)
         (platform p ++ [ClipboardWriteText (content (ui w))])%list
         (pendingShare p).

(** [content.substring(0, 200) + '...']. *)
Definition share_text (c : jsstring) : jsstring :=
  Js.substring 0 200 c ++ "...".

(** [shareContent] up to the [await navigator.share]; [can_share] is the
    truthiness of [navigator.share], and [c] is the [content] cell, a string
    here because the button is rendered only for a truthy content. *)
Definition shareContent_call (can_share : bool) (c : jsstring) (p : Page)
  : Page :=
  if can_share
  then mkPage (component p)
              (platform p
                 ++ [NavigatorShare (topic (ui (component p))) (share_text c)])%list
              (S (pendingShare p))
  else copyToClipboard p.

(** [shareContent] from the settlement of the share promise on: [None] when
    it resolves, [Some err] when it rejects (the user cancels). *)
Definition shareContent_settle (o : option Thrown) (p : Page) : Page :=
  match o with
  | None => p
  | Some err =>
      mkPage (emit (ConsoleError "Error sharing:" err) (component p))
             (platform p) (pendingShare p)
  end.

(** ** The page: every handler of the component *)

Inductive Action :=
| Core (e : Event)
| ClickCopy
| ClickShare (can_share : bool)
| ShareSettled (o : option Thrown).

Definition mounted_page : Page := mkPage mounted [] 0.

(** ** Counting effects *)

Definition count (f : Effect -> bool) (w : World) : nat :=
  length (filter f (trace w)).

Definition is_post (e : Effect) : bool :=
  match e with FetchPost _ => true | _ => false end.

Definition is_get (e : Effect) : bool :=
  match e with FetchGet => true | _ => false end.

Definition is_error_toast (e : Effect) : bool :=
  match e with ToastError _ => true | _ => false end.

Definition is_generated_toast (e : Effect) : bool :=
  match e with
  | ToastSuccess msg => Js.eqb msg "Content generated successfully!"
  | _ => false
  end.

(** The outcomes on which [generateContent] takes its success branch. *)
Definition generation_succeeded (o : Settled GenerationResult) : bool :=
  match o with
  | Responded status (BodyValue data) =>
      response_ok status && status_is_success (res_status data)
  | _ => false
  end.

(** Every dispatched generation request is in flight or has ended in exactly
    one toast, and a history refresh was requested once at mount and once per
    successful generation. *)
Definition accounting (w : World) : Prop :=
  count is_post w
  = (count is_error_toast w + count is_generated_toast w
     + length (pendingGen w))%nat
  /\ count is_get w = S (count is_generated_toast w)
  /\ (pendingHist w <= count is_get w)%nat.

(** A displayed error text was also shown as an error toast. *)
Definition error_announced (w : World) : Prop :=
  error (ui w) = "" \/ In (ToastError (error (ui w))) (trace w).

(** Six cached items, and a world in which they are cached and the history
    panel is open. *)
Definition six_items : list HistoryItem :=
  map (fun n => mkHistoryItem n ("topic " ++ Js.of_number n)
                              ("content " ++ Js.of_number n) "2025-01-01")
      [1; 2; 3; 4; 5; 6]%N.

Definition browsing : World :=
  onToggleHistory
    (fetchSavedContents_settle
       (Responded 200 (BodyValue (mkHistoryReply (Some "success") six_items)))
       (mkWorld initial_state [] 0 [FetchGet])).

(** A page on which a generation has succeeded and the result has been
    copied. *)
Definition generated (v c : jsstring) (t0 t1 : Z) : World :=
  generateContent_settle t0
    (Responded 200
       (BodyValue (mkGenerationResult (Some "success") (Some c)
                                      Js.Undefined)))
    t1 (take_ticket 0 (clicked v t0)).

(** A world with six items cached in which a generation has just succeeded,
    so that a history refresh is in flight. *)
Definition refreshing : World :=
  generateContent_settle 5
    (Responded 200
       (BodyValue (mkGenerationResult (Some "success") (Some "# Cats")
                                      Js.Undefined)))
    9
    (take_ticket 0
       (onClickGenerate 5
          (onChangeTopic "cats"
             (fetchSavedContents_settle
                (Responded 200
                   (BodyValue (mkHistoryReply (Some "success") six_items)))
                (mkWorld initial_state [] 0 [FetchGet]))))).

Definition copied_page : Page :=
  copyToClipboard (mkPage (generated "cats" "# Cats" 5 9) [] 0).

(** ** Which events call which setter *)

Definition calls_setTopic (e : Event) : bool :=
  match e with
  | ChangeTopic _ | ClickHistoryItem _ | ClickClosingHistoryItem _ => true
  | _ => false
  end.

Definition calls_setContent (e : Event) : bool :=
  match e with
  | ClickHistoryItem _ | ClickClosingHistoryItem _
  | GenerationSettled _ _ _ => true
  | _ => false
  end.

Definition calls_setLoading_or_setError (e : Event) : bool :=
  match e with
  | KeyPress _ _ | ClickGenerate _ | GenerationSettled _ _ _ => true
  | _ => false
  end.

Definition calls_setGenerationTime (e : Event) : bool :=
  match e with GenerationSettled _ _ _ => true | _ => false end.

Definition calls_setSavedContents (e : Event) : bool :=
  match e with HistorySettled _ => true | _ => false end.

Definition calls_setShowHistory (e : Event) : bool :=
  match e with
  | ToggleHistory | ClickHistoryItem _ | ClickClosingHistoryItem _ => true
  | _ => false
  end.

(** ** The message page ([Home] with [fetchData]) *)
Module HomePage.

(** The parsed body of [GET /api/message]. *)
Record MessageReply := mkMessageReply {
  reply_message : option jsstring
}.

(** The [message] cell after the first render. *)
Definition initial_message : option jsstring :=
  Some "Loading message from backend...".

Definition failure_text : jsstring := "Failed to load message from backend.".

(** [fetchData] from the settlement of its fetch on: the new [message] cell
    and the effects. *)
Definition fetchData_settle (o : Settled MessageReply)
  : option jsstring * list Effect :=
  let failed e :=
    (Some failure_text, [ConsoleError "Failed to fetch data:" e]) in
  match o with
  | Rejected e => failed e
  | Responded status body =>
      if negb (response_ok status)
      then failed (ErrorObject ("HTTP error! status: " ++ Js.of_number status))
      else
        match body with
        | BodyRejects e => failed e
        | BodyNull msg => failed (ErrorObject msg)
        | BodyValue data => (reply_message data, [])
        end
  end.

Definition fetch_succeeded (o : Settled MessageReply) : bool :=
  match o with
  | Responded status (BodyValue _) => response_ok status
  | _ => false
  end.

End HomePage.

(** ** The part of the component that lowercases

    [String.prototype.toLowerCase] follows the case tables of Unicode, which
    are not part of the component: it is a parameter of everything that
    depends on the download file name. *)
Section Platform.

Variable toLowerCase : jsstring -> jsstring.

(** *** Download file name ([downloadContent], the [a.download] attribute) *)

Definition download_filename (topic : jsstring) : jsstring :=
  toLowerCase (Js.replace_ws topic) ++ ".md".


Definition downloadContent (w : World) : World :=
  let w := emit (Download (download_filename (topic (ui w))) (content (ui w))) w in
  emit (ToastSuccess "Content downloaded!") w.

(** *** The component as a transition system *)

(** [None] when the event cannot happen in [w]: a button that is not
    rendered, a request that is not in flight. *)
Definition step (e : Event) (w : World) : option World :=
  match e with
  | ChangeTopic v => Some (onChangeTopic v w)
  | KeyPress key now => Some (onKeyPress key now w)
  | ClickGenerate now => Some (onClickGenerate now w)
  | ToggleHistory => Some (onToggleHistory w)
  | ClickHistoryItem i =>
      if showHistory (ui w)
      then match nth_error (displayed_history (ui w)) i with
           | Some item => Some (loadFromHistory item w)
           | None => None
           end
      else None
  | ClickClosingHistoryItem item =>
      if showHistory (ui w) then None else Some (loadFromHistory item w)
  | ClickDownload =>
      if content_shown (ui w) then Some (downloadContent w) else None
  | GenerationSettled i o now =>
      match nth_error (pendingGen w) i with
      | Some t =>
          Some (generateContent_settle (startTime t) o now (take_ticket i w))
      | None => None
      end
  | HistorySettled o =>
      match pendingHist w with
      | S n =>
          Some (fetchSavedContents_settle o
                  (mkWorld (ui w) (pendingGen w) n (trace w)))
      | O => None
      end
  end.

Fixpoint run (evs : list Event) (w : World) : option World :=
  match evs with
  | [] => Some w
  | e :: rest =>
      match step e w with
      | Some w' => run rest w'
      | None => None
      end
  end.

Inductive reachable : World -> Prop :=
| reachable_mounted : reachable mounted
| reachable_step (e : Event) (w w' : World) :
    reachable w -> step e w = Some w' -> reachable w'.

(** *** The page: every handler of the component *)

Definition act (a : Action) (p : Page) : option Page :=
  match a with
  | Core e =>
      match step e (component p) with
      | Some w' => Some (mkPage w' (platform p) (pendingShare p))
      | None => None
      end
  | ClickCopy =>
      if content_shown (ui (component p)) then Some (copyToClipboard p)
      else None
  | ClickShare can_share =>
      match content (ui (component p)) with
      | Some c =>
          if Js.truthy c then Some (shareContent_call can_share c p) else None
      | None => None
      end
  | ShareSettled o =>
      match pendingShare p with
      | S n =>
          Some (shareContent_settle o (mkPage (component p) (platform p) n))
      | O => None
      end
  end.

Inductive page_reachable : Page -> Prop :=
| page_reachable_mounted : page_reachable mounted_page
| page_reachable_act (a : Action) (p p' : Page) :
    page_reachable p -> act a p = Some p' -> page_reachable p'.

Fixpoint perform (acts : list Action) (p : Page) : option Page :=
  match acts with
  | [] => Some p
  | a :: rest =>
      match act a p with
      | Some p' => perform rest p'
      | None => None
      end
  end.


(** *** The scan computes the run-by-run rendering *)



(** *** [runs] is the decomposition into maximal runs *)




(** *** On ASCII text the order of the two steps does not matter *)







(** ** Frame lemmas for the handlers *)

Lemma generateContent_settle_loading (t0 : Z) (o : Settled GenerationResult)
    (now : Z) (w : World) :
  loading (ui (generateContent_settle t0 o now w)) = false.
Proof. reflexivity. Qed.

Ltac settle_cases o :=
  let e := fresh "e" in
  let status := fresh "status" in
  let body := fresh "body" in
  let data := fresh "data" in
  unfold generateContent_settle, generateContent_try;
  destruct o as [e | status body];
  [ | destruct (response_ok status);
      [ destruct body as [e | e | data];
        [ | | destruct (status_is_success (res_status data)) ] | ] ].

Lemma generateContent_settle_pendingGen (t0 : Z) (o : Settled GenerationResult)
    (now : Z) (w : World) :
  pendingGen (generateContent_settle t0 o now w) = pendingGen w.
Proof. settle_cases o; reflexivity. Qed.

Lemma fetchSavedContents_settle_frame (o : Settled HistoryReply) (w : World) :
  let w' := fetchSavedContents_settle o w in
  pendingGen w' = pendingGen w
  /\ loading (ui w') = loading (ui w)
  /\ error (ui w') = error (ui w)
  /\ topic (ui w') = topic (ui w).
Proof.
  destruct o as [e | status [e | m | data]]; simpl; auto.
  destruct (status_is_success (hist_status data)); simpl; auto.
Qed.

Lemma generateContent_call_invariant (now : Z) (w : World) :
  pendingGen w = [] -> lifecycle_invariant (generateContent_call now w).
Proof.
  intro H. unfold lifecycle_invariant; simpl. rewrite H. now split.
Qed.

Lemma nth_error_singleton {A : Type} (l : list A) (i : nat) (x : A) :
  length l = 1%nat -> nth_error l i = Some x -> i = 0%nat /\ l = [x].
Proof.
  destruct l as [|y [|z l]]; simpl; try discriminate.
  intros _. destruct i as [|i]; simpl.
  - intro H. injection H as ->. now split.
  - destruct i; discriminate.
Qed.

Lemma onKeyPress_cases (key : jsstring) (now : Z) (w : World) :
  onKeyPress key now w
  = if Js.eqb key "Enter" then onClickGenerate now w else w.
Proof.
  unfold onKeyPress, onClickGenerate, generate_disabled.
  destruct (Js.eqb key "Enter"); simpl; [|reflexivity].
  destruct (loading (ui w)); simpl; [reflexivity|].
  destruct (Js.truthy (topic (ui w))); reflexivity.
Qed.

Lemma step_preserves_lifecycle (e : Event) (w w' : World) :
  lifecycle_invariant w -> step e w = Some w' -> lifecycle_invariant w'.
Proof.
  intros I Hs. unfold lifecycle_invariant in *.
  destruct e as [v | key now | now | | i | item | | i o now | o]; simpl in Hs.
  - injection Hs as <-. exact I.
  - injection Hs as <-. rewrite onKeyPress_cases.
    destruct (Js.eqb key "Enter"); [|exact I].
    unfold onClickGenerate, generate_disabled.
    destruct (loading (ui w)) eqn:L; simpl; [now rewrite L|].
    destruct (negb _); [now rewrite L|].
    now apply generateContent_call_invariant.
  - injection Hs as <-. unfold onClickGenerate, generate_disabled.
    destruct (loading (ui w)) eqn:L; simpl; [now rewrite L|].
    destruct (negb _); [now rewrite L|].
    now apply generateContent_call_invariant.
  - injection Hs as <-. exact I.
  - destruct (showHistory (ui w)); [|discriminate].
    destruct (nth_error _ i); [|discriminate].
    injection Hs as <-. exact I.
  - destruct (showHistory (ui w)); [discriminate|].
    injection Hs as <-. exact I.
  - destruct (content_shown (ui w)); [|discriminate].
    injection Hs as <-. exact I.
  - destruct (nth_error (pendingGen w) i) as [t|] eqn:Ht; [|discriminate].
    injection Hs as <-.
    rewrite generateContent_settle_loading, generateContent_settle_pendingGen.
    simpl. destruct (loading (ui w)).
    + destruct I as [Hlen _].
      destruct (nth_error_singleton _ _ _ Hlen Ht) as [-> ->]. reflexivity.
    + rewrite I in Ht. destruct i; discriminate.
  - destruct (pendingHist w) as [|n]; [discriminate|].
    injection Hs as <-.
    destruct (fetchSavedContents_settle_frame o
                (mkWorld (ui w) (pendingGen w) n (trace w)))
      as (-> & -> & -> & _).
    exact I.
Qed.

(** The loading flag is true exactly while one generation request is in
    flight. *)
Lemma reachable_invariant (w : World) :
  reachable w -> lifecycle_invariant w.
Proof.
  induction 1 as [| e w w' Hw IH Hstep]; [reflexivity|].
  now apply (step_preserves_lifecycle e w w').
Qed.

Lemma run_reachable (evs : list Event) (w w' : World) :
  reachable w -> run evs w = Some w' -> reachable w'.
Proof.
  revert w; induction evs as [|e evs IH]; intros w Hw; simpl.
  - now intros [= <-].
  - destruct (step e w) as [w1|] eqn:E; [|discriminate].
    apply IH. now apply (reachable_step e w).
Qed.

Lemma onClickGenerate_loading (now : Z) (w : World) :
  loading (ui w) = true -> onClickGenerate now w = w.
Proof.
  intro L. unfold onClickGenerate, generate_disabled. now rewrite L.
Qed.

Lemma onKeyPress_loading (key : jsstring) (now : Z) (w : World) :
  loading (ui w) = true -> onKeyPress key now w = w.
Proof.
  intro L. unfold onKeyPress. rewrite L. now rewrite andb_false_r.
Qed.

(** ** The claims *)

(** C1 (amended). For the empty topic string, invoking the generation by the
    button or by the Enter key performs no network call and leaves the whole
    world (displayed topic and content, error text, loading flag, requests in
    flight, effects) unchanged. *)
Theorem C1_empty_topic_noop (w : World) (key : jsstring) (now : Z) :
  topic (ui w) = "" ->
  onClickGenerate now w = w
  /\ onKeyPress key now w = w
  /\ network_calls (onClickGenerate now w) = network_calls w
  /\ network_calls (onKeyPress key now w) = network_calls w.
Proof.
  intro H.
  assert (Hc : onClickGenerate now w = w).
  { unfold onClickGenerate, generate_disabled. rewrite H. simpl.
    now rewrite orb_true_r. }
  assert (Hk : onKeyPress key now w = w).
  { unfold onKeyPress. rewrite H. simpl. now rewrite andb_false_r. }
  rewrite Hc, Hk. repeat split.
Qed.

(** C2. While the loading flag is true, invoking the generation again (by the
    button or by any key) changes nothing and issues no network call; and in
    every reachable world at most one generation request is in flight. *)
Theorem C2_single_flight (w : World) :
  reachable w ->
  (length (pendingGen w) <= 1)%nat
  /\ (loading (ui w) = true ->
      forall (key : jsstring) (now : Z),
        onClickGenerate now w = w
        /\ onKeyPress key now w = w
        /\ step (ClickGenerate now) w = Some w
        /\ step (KeyPress key now) w = Some w).
Proof.
  intro R. apply reachable_invariant in R. unfold lifecycle_invariant in R.
  split.
  - destruct (loading (ui w)).
    + destruct R as [-> _]. constructor.
    + rewrite R. simpl. lia.
  - intros L key now. simpl.
    rewrite (onClickGenerate_loading now w L), (onKeyPress_loading key now w L).
    repeat split.
Qed.

(** C9. The settlement of a generation request that is in flight always runs
    to its end, whatever the outcome (a success, an HTTP error, a body whose
    status is not [success], a rejected fetch, a body that does not parse),
    and ends with the loading flag equal to false. *)
Theorem C9_loading_cleared (w : World) (i : nat) (t : Ticket)
    (o : Settled GenerationResult) (now : Z) :
  nth_error (pendingGen w) i = Some t ->
  exists w',
    step (GenerationSettled i o now) w = Some w'
    /\ loading (ui w') = false.
Proof.
  intro Ht. unfold step. rewrite Ht.
  eexists. split; [reflexivity|]. apply generateContent_settle_loading.
Qed.

(** C10. Selecting a history item sets the topic and the content to the
    item's, closes the history panel and shows one informational toast; the
    error text, the elapsed generation time, the cached history list, the
    loading flag and the requests in flight stay as they were, and no network
    call is made. An error message displayed before is displayed after. *)
Theorem C10_loadFromHistory_frame (item : HistoryItem) (w : World) :
  let w' := loadFromHistory item w in
  topic (ui w') = item_topic item
  /\ content (ui w') = Some (item_content item)
  /\ showHistory (ui w') = false
  /\ error (ui w') = error (ui w)
  /\ generationTime (ui w') = generationTime (ui w)
  /\ savedContents (ui w') = savedContents (ui w)
  /\ loading (ui w') = loading (ui w)
  /\ pendingGen w' = pendingGen w
  /\ pendingHist w' = pendingHist w
  /\ trace w' = (trace w ++ [ToastInfo "Content loaded from history"])%list.
Proof. repeat split. Qed.

Lemma in_flight_error_cleared (w : World) (i : nat) (t : Ticket) :
  reachable w -> nth_error (pendingGen w) i = Some t ->
  loading (ui w) = true /\ error (ui w) = "" /\ pendingGen w = [t].
Proof.
  intros R Ht. apply reachable_invariant in R.
  unfold lifecycle_invariant in R. destruct (loading (ui w)).
  - destruct R as [Hlen He].
    destruct (nth_error_singleton _ _ _ Hlen Ht) as [_ Hl]. auto.
  - rewrite R in Ht. destruct i; discriminate.
Qed.

(** *** The sign of a quotient of numbers *)

Lemma shr_1_nonneg (mrs : shr_record) :
  (0 <= shr_m mrs)%Z -> (0 <= shr_m (shr_1 mrs))%Z.
Proof.
  destruct mrs as [m r s]. destruct m as [|[p|p|]|p]; simpl; lia.
Qed.

Lemma iter_pos_nonneg (p : positive) (mrs : shr_record) :
  (0 <= shr_m mrs)%Z -> (0 <= shr_m (iter_pos shr_1 p mrs))%Z.
Proof.
  revert mrs; induction p as [p IH | p IH |]; intros mrs H; simpl.
  - apply IH, IH. now apply shr_1_nonneg.
  - now apply IH, IH.
  - now apply shr_1_nonneg.
Qed.

Lemma shr_fexp_nonneg (prec emax m e : Z) (l : location) :
  (0 <= m)%Z -> (0 <= shr_m (fst (shr_fexp prec emax m e l)))%Z.
Proof.
  intro H. unfold shr_fexp, shr.
  assert (H0 : (0 <= shr_m (shr_record_of_loc m l))%Z)
    by (destruct l as [|[]]; exact H).
  destruct (fexp prec emax (Zdigits2 m + e) - e)%Z; simpl; auto.
  now apply iter_pos_nonneg.
Qed.

Lemma round_nearest_even_nonneg (m : Z) (l : location) :
  (0 <= m)%Z -> (0 <= round_nearest_even m l)%Z.
Proof.
  intro H. destruct l as [|[]]; simpl; try destruct (Z.even m); lia.
Qed.

(** The sign of a rounded number is the sign it was given. *)
Lemma binary_round_aux_sign (prec emax : Z) (sx : bool) (mx ex : Z)
    (lx : location) :
  (0 <= mx)%Z ->
  let r := binary_round_aux prec emax sx mx ex lx in
  r = S754_zero sx \/ (exists m e, r = S754_finite sx m e)
  \/ r = S754_infinity sx.
Proof.
  intro H. unfold binary_round_aux.
  pose proof (shr_fexp_nonneg prec emax mx ex lx H) as H1.
  destruct (shr_fexp prec emax mx ex lx) as [mrs' e'].
  simpl in H1.
  pose proof (shr_fexp_nonneg prec emax
                (round_nearest_even (shr_m mrs') (loc_of_shr_record mrs'))
                e' loc_Exact (round_nearest_even_nonneg _ _ H1)) as H2.
  destruct (shr_fexp prec emax _ e' loc_Exact) as [mrs'' e''].
  simpl in H2. simpl.
  destruct (shr_m mrs'') as [|m|m].
  - now left.
  - destruct (e'' <=? emax - prec)%Z; [right; left; now eexists _, _ | now right; right].
  - lia.
Qed.

Lemma div_by_thousand_nonneg (d : Z) :
  (0 <= d)%Z -> Js.ge_zero (Js.div (Js.of_Z d) (Js.of_Z 1000)) = true.
Proof.
  intro H.
  change (Js.of_Z 1000) with (S754_finite false 8796093022208000 (-43)).
  destruct d as [|p|p]; [reflexivity | | lia].
  unfold Js.of_Z, binary_normalize, binary_round.
  destruct (shl_align _ _ _) as [mz ez].
  destruct (binary_round_aux_sign 53 1024 false (Zpos mz) ez loc_Exact)
    as [-> | [(m & e & ->) | ->]]; [lia | reflexivity | | reflexivity].
  unfold Js.div, SFdiv.
  destruct (SFdiv_core_binary 53 1024 (Z.pos m) e 8796093022208000 (-43))
    as [[q e'] l] eqn:E.
  assert (Hq : (0 <= q)%Z).
  { unfold SFdiv_core_binary in E.
    match type of E with
    | (let '(_, _) := Z.div_eucl ?a ?b in _) = _ =>
        pose proof (Z.div_pos a b) as Hd;
        unfold Z.div in Hd;
        destruct (Z.div_eucl a b) as [q0 r0] eqn:Eq
    end.
    injection E as <- _ _. apply Hd; [|lia].
    destruct (e - -43 - _)%Z; try lia.
    apply Z.shiftl_nonneg. lia. }
  simpl xorb.
  destruct (binary_round_aux_sign 53 1024 false q e' l Hq)
    as [-> | [(m' & e'' & ->) | ->]]; reflexivity.
Qed.

Lemma elapsed_nonneg (t0 now : Z) :
  (t0 <= now)%Z -> Js.ge_zero (elapsed_seconds t0 now) = true.
Proof.
  intro H. unfold elapsed_seconds. apply div_by_thousand_nonneg. lia.
Qed.

(** *** The digits of a number *)






(** C3 (amended). When the request in flight settles with an HTTP 2xx
    response whose body has status [success] and content [c], the content
    becomes exactly [c], the elapsed time becomes the number
    [(now - start) / 1000], the quotient of numbers of the difference of the
    two clock readings by 1000, the error text is still the empty one set at
    the start, the loading flag is false, a success toast is shown and one
    history refresh is started. The elapsed time is not negative when the
    reading at the settlement is not before the reading at the start. *)
Theorem C3_success (w : World) (i : nat) (t : Ticket) (status : N)
    (data : GenerationResult) (c : jsstring) (now : Z) :
  reachable w ->
  nth_error (pendingGen w) i = Some t ->
  response_ok status = true ->
  res_status data = Some "success" ->
  res_content data = Some c ->
  exists w',
    step (GenerationSettled i (Responded status (BodyValue data)) now) w
    = Some w'
    /\ content (ui w') = Some c
    /\ generationTime (ui w')
       = Js.div (Js.of_Z (now - startTime t)) (Js.of_Z 1000)
    /\ ((startTime t <= now)%Z -> Js.ge_zero (generationTime (ui w')) = true)
    /\ error (ui w') = ""
    /\ loading (ui w') = false
    /\ trace w'
       = (trace w ++ [ToastSuccess "Content generated successfully!"]
                  ++ [FetchGet])%list
    /\ pendingHist w' = S (pendingHist w)
    /\ pendingGen w' = [].
Proof.
  intros R Ht Hok Hs Hc.
  destruct (in_flight_error_cleared w i t R Ht) as (_ & He & Hp).
  assert (Hi : i = 0%nat).
  { rewrite Hp in Ht. destruct i as [|[|i]]; [reflexivity | discriminate ..]. }
  subst i.
  unfold step. rewrite Ht. eexists. split; [reflexivity|].
  unfold generateContent_settle, generateContent_try.
  rewrite Hok, Hs. simpl. rewrite Hc, Hp, He.
  repeat split.
  - intro Hle. now apply elapsed_nonneg.
  - now rewrite <- app_assoc.
Qed.


(** C5 (amended). When the request in flight settles with an HTTP 2xx
    response whose body has a status other than [success] (or none), the
    displayed error text becomes the body's message when that message is a
    non-empty string, and [Unknown error occurred] when the message is empty
    or absent; the same text is shown as an error toast and the content is
    what it was. *)
Theorem C5_service_error (w : World) (i : nat) (t : Ticket) (status : N)
    (data : GenerationResult) (now : Z) :
  nth_error (pendingGen w) i = Some t ->
  response_ok status = true ->
  status_is_success (res_status data) = false ->
  exists w',
    step (GenerationSettled i (Responded status (BodyValue data)) now) w
    = Some w'
    /\ (forall m : jsstring,
           res_message data = Js.Str m -> m <> "" -> error (ui w') = m)
    /\ (res_message data = Js.Str "" \/ res_message data = Js.Undefined ->
        error (ui w') = "Unknown error occurred")
    /\ content (ui w') = content (ui w)
    /\ trace w' = (trace w ++ [ToastError (error (ui w'))])%list.
Proof.
  intros Ht Hok Hs.
  unfold step. rewrite Ht. eexists. split; [reflexivity|].
  unfold generateContent_settle, generateContent_try. rewrite Hok, Hs.
  simpl. unfold Js.error_message_or. repeat split.
  - intros m Hm Hne. rewrite Hm. simpl.
    destruct m; [contradiction | reflexivity].
  - intros [Hm | Hm]; now rewrite Hm.
Qed.

(** C6 (amended). When a history refresh in flight ends in any other way
    than with a body that parses and has status [success] (the fetch
    rejects, the body does not parse or is [null], or its status is not
    [success]; the HTTP status code plays no part), the settlement runs to
    its end, the whole rendered state stays as it was (in
    particular the cached history items and the error text), and no toast is
    shown: the only possible effect is a line on the console. *)
Theorem C6_stale_cache (w : World) (o : Settled HistoryReply) :
  (0 < pendingHist w)%nat ->
  body_says_success o = false ->
  exists w',
    step (HistorySettled o) w = Some w'
    /\ savedContents (ui w') = savedContents (ui w)
    /\ error (ui w') = error (ui w)
    /\ ui w' = ui w
    /\ toasts w' = toasts w
    /\ network_calls w' = network_calls w.
Proof.
  intros Hp Hf. unfold step.
  destruct (pendingHist w) as [|n]; [lia|].
  eexists. split; [reflexivity|].
  assert (Hflt : forall (f : Effect -> bool) l lbl e,
             f (ConsoleError lbl e) = false ->
             filter f (l ++ [ConsoleError lbl e])%list = filter f l).
  { intros f l lbl e Hfe. rewrite filter_app. simpl. rewrite Hfe.
    apply app_nil_r. }
  unfold toasts, network_calls.
  destruct o as [e | status [e | m | data]]; simpl in *;
    try (rewrite !Hflt by reflexivity; now repeat split).
  rewrite Hf. now repeat split.
Qed.

(** The refresh does not look at the HTTP status: a body with status
    [success] replaces the cache whatever the status code. *)
Lemma refresh_replaces_cache (w : World) (n : nat) (status : N)
    (items : list HistoryItem) :
  pendingHist w = S n ->
  exists w',
    step (HistorySettled
            (Responded status
               (BodyValue (mkHistoryReply (Some "success") items)))) w
    = Some w'
    /\ savedContents (ui w') = items.
Proof.
  intro Hp. unfold step. rewrite Hp. eexists. split; reflexivity.
Qed.

(** ** What is dispatched *)

Ltac split_trace H :=
  repeat (apply in_app_or in H; destruct H as [H | H]);
  try (destruct H as [H | []]; discriminate H).

Lemma generateContent_call_dispatches (now : Z) (w : World)
    (req : GenerationRequest) :
  In (FetchPost req) (trace (generateContent_call now w)) ->
  In (FetchPost req) (trace w) \/ req = mkGenerationRequest (topic (ui w)).
Proof.
  simpl. intro H. apply in_app_or in H. destruct H as [H | [H | []]].
  - now left.
  - right. now injection H.
Qed.

Lemma generateContent_settle_dispatches (t0 : Z)
    (o : Settled GenerationResult) (now : Z) (w : World)
    (req : GenerationRequest) :
  In (FetchPost req) (trace (generateContent_settle t0 o now w)) ->
  In (FetchPost req) (trace w).
Proof.
  settle_cases o; simpl; intro H; split_trace H; exact H.
Qed.

Lemma fetchSavedContents_settle_dispatches (o : Settled HistoryReply)
    (w : World) (req : GenerationRequest) :
  In (FetchPost req) (trace (fetchSavedContents_settle o w)) ->
  In (FetchPost req) (trace w).
Proof.
  destruct o as [e | status [e | m | data]]; simpl;
    try destruct (status_is_success (hist_status data)); simpl;
    intro H; split_trace H; exact H.
Qed.

(** A step dispatches at most the topic cell as it is, and only when the
    cell is truthy. *)
Lemma step_dispatches (e : Event) (w w' : World) (req : GenerationRequest) :
  step e w = Some w' ->
  In (FetchPost req) (trace w') ->
  In (FetchPost req) (trace w)
  \/ (req = mkGenerationRequest (topic (ui w))
      /\ Js.truthy (topic (ui w)) = true).
Proof.
  destruct e as [v | key now | now | | i | item | | i o now | o]; simpl; intros Hs Hin.
  - injection Hs as <-. now left.
  - injection Hs as <-. unfold onKeyPress in Hin.
    destruct (Js.truthy (topic (ui w))) eqn:T;
      [| rewrite andb_false_r in Hin; now left].
    destruct (_ && _ && _); [| now left].
    apply generateContent_call_dispatches in Hin. destruct Hin; auto.
  - injection Hs as <-. unfold onClickGenerate, generate_disabled in Hin.
    destruct (Js.truthy (topic (ui w))) eqn:T;
      [| rewrite orb_true_r in Hin; now left].
    destruct (_ || _); [now left|].
    apply generateContent_call_dispatches in Hin. destruct Hin; auto.
  - injection Hs as <-. now left.
  - destruct (showHistory (ui w)); [|discriminate].
    destruct (nth_error _ i); [|discriminate].
    injection Hs as <-. simpl in Hin. split_trace Hin. now left.
  - destruct (showHistory (ui w)); [discriminate|].
    injection Hs as <-. simpl in Hin. split_trace Hin. now left.
  - destruct (content_shown (ui w)); [|discriminate].
    injection Hs as <-. simpl in Hin. split_trace Hin. now left.
  - destruct (nth_error (pendingGen w) i); [|discriminate].
    injection Hs as <-.
    apply generateContent_settle_dispatches in Hin. now left.
  - destruct (pendingHist w); [discriminate|].
    injection Hs as <-.
    apply fetchSavedContents_settle_dispatches in Hin. now left.
Qed.

Lemma reachable_dispatched_truthy (w : World) (req : GenerationRequest) :
  reachable w -> dispatched req w -> Js.truthy (req_topic req) = true.
Proof.
  unfold dispatched. induction 1 as [| e w w' Hw IH Hstep]; intro Hin.
  - simpl in Hin. destruct Hin as [Hin | []]. discriminate Hin.
  - destruct (step_dispatches e w w' req Hstep Hin) as [Hold | [-> T]].
    + now apply IH.
    + exact T.
Qed.

(** C7 (amended). Every generation request dispatched in a reachable world
    carries a non-empty topic, and the topic sent is the topic cell as it is
    at the time of the call: an enabled click and an Enter key press outside
    loading append exactly the request [{ topic }] to the trace. *)
Theorem C7_dispatched_topic (w : World) (req : GenerationRequest) :
  reachable w ->
  dispatched req w ->
  req_topic req <> ""
  /\ (forall (w0 : World) (now : Z),
         generate_disabled (ui w0) = false ->
         trace (onClickGenerate now w0)
         = (trace w0 ++ [FetchPost (mkGenerationRequest (topic (ui w0)))])%list
         /\ trace (onKeyPress "Enter" now w0)
            = (trace w0
                 ++ [FetchPost (mkGenerationRequest (topic (ui w0)))])%list).
Proof.
  intros R D. split.
  - pose proof (reachable_dispatched_truthy w req R D) as T.
    destruct (req_topic req); [discriminate T | discriminate].
  - intros w0 now Hd. unfold onClickGenerate, onKeyPress. rewrite Hd.
    unfold generate_disabled in Hd. apply orb_false_elim in Hd as [L T].
    apply negb_false_iff in T. rewrite L, T. now split.
Qed.

(** ** Further properties of the whitespace replacement *)

Lemma is_space_hyphen : Js.is_space Js.hyphen = false.
Proof. reflexivity. Qed.

Lemma replace_ws_from_no_space (b : bool) (s : jsstring) :
  forallb (fun u => negb (Js.is_space u)) (Js.units (Js.replace_ws_from b s))
  = true.
Proof.
  revert b; induction s as [|u s IH]; intro b; simpl; [reflexivity|].
  destruct (Js.is_space u) eqn:Hu.
  - destruct b; simpl; now rewrite IH.
  - simpl. now rewrite Hu, IH.
Qed.

Lemma replace_ws_from_length (b : bool) (s : jsstring) :
  (Js.length (Js.replace_ws_from b s) <= Js.length s)%nat.
Proof.
  revert b; induction s as [|u s IH]; intro b; simpl; [lia|].
  destruct (Js.is_space u).
  - destruct b; simpl.
    + specialize (IH true). lia.
    + specialize (IH true). lia.
  - simpl. specialize (IH false). lia.
Qed.

Lemma replace_ws_from_fixed (s : jsstring) :
  forallb (fun u => negb (Js.is_space u)) (Js.units s) = true ->
  Js.replace_ws_from false s = s.
Proof.
  induction s as [|u s IH]; simpl; [reflexivity|].
  intro H. apply andb_prop in H as [Hu Hs].
  apply negb_true_iff in Hu. now rewrite Hu, IH.
Qed.

Lemma append_length (s t : jsstring) :
  Js.length (s ++ t) = (Js.length s + Js.length t)%nat.
Proof.
  induction s as [|u s IH]; simpl; [reflexivity | now rewrite IH].
Qed.

(** X1. Whatever the topic, the whitespace replacement that makes the stem
    of the download file name leaves no whitespace character of any kind
    (the whole class of the regular expression, not only the space), and it
    never makes the text longer. *)
Theorem replace_ws_clean (topic : jsstring) :
  forallb (fun u => negb (Js.is_space u)) (Js.units (Js.replace_ws topic))
  = true
  /\ (Js.length (Js.replace_ws topic) <= Js.length topic)%nat.
Proof.
  split; [apply replace_ws_from_no_space | apply replace_ws_from_length].
Qed.

(** X2. Replacing the whitespace runs of a topic in which they are already
    replaced changes nothing, so a topic and its hyphenated form get the
    same download file name. *)
Theorem replace_ws_stable (topic : jsstring) :
  Js.replace_ws (Js.replace_ws topic) = Js.replace_ws topic
  /\ download_filename (Js.replace_ws topic) = download_filename topic.
Proof.
  assert (H : Js.replace_ws (Js.replace_ws topic) = Js.replace_ws topic).
  { unfold Js.replace_ws. apply replace_ws_from_fixed.
    apply replace_ws_from_no_space. }
  split; [exact H|]. unfold download_filename. now rewrite H.
Qed.

(** ** The two entry points of the generation *)

(** X3. The Enter key does exactly what a click on the generate button
    does, in every world; any other key does nothing. *)
Theorem enter_key_is_click (key : jsstring) (now : Z) (w : World) :
  onKeyPress key now w
  = (if Js.eqb key "Enter" then onClickGenerate now w else w)
  /\ step (KeyPress key now) w
     = (if Js.eqb key "Enter" then step (ClickGenerate now) w else Some w).
Proof.
  split.
  - apply onKeyPress_cases.
  - simpl. rewrite onKeyPress_cases.
    destruct (Js.eqb key "Enter"); reflexivity.
Qed.

(** ** Failed and degenerate generations *)

Lemma filter_emit_false (f : Effect -> bool) (l : list Effect) (e : Effect) :
  f e = false -> filter f (l ++ [e])%list = filter f l.
Proof.
  intro H. rewrite filter_app. simpl. rewrite H. apply app_nil_r.
Qed.

(** X4. When a generation request in flight settles on anything but the
    success branch (a rejected fetch, a status outside 2xx, a body that does
    not parse or is null, a body status other than [success]), the topic,
    the content, the elapsed time, the cached history and the history panel
    stay as they were, no history refresh and no other network call is
    started, and exactly one error toast is shown, carrying the error text
    that is displayed. *)
Theorem generation_failure_frame (w : World) (i : nat) (t : Ticket)
    (o : Settled GenerationResult) (now : Z) :
  nth_error (pendingGen w) i = Some t ->
  generation_succeeded o = false ->
  exists w',
    step (GenerationSettled i o now) w = Some w'
    /\ topic (ui w') = topic (ui w)
    /\ content (ui w') = content (ui w)
    /\ generationTime (ui w') = generationTime (ui w)
    /\ savedContents (ui w') = savedContents (ui w)
    /\ showHistory (ui w') = showHistory (ui w)
    /\ pendingHist w' = pendingHist w
    /\ network_calls w' = network_calls w
    /\ trace w' = (trace w ++ [ToastError (error (ui w'))])%list.
Proof.
  intros Ht Hf. unfold step. rewrite Ht. eexists. split; [reflexivity|].
  unfold network_calls, generateContent_settle, generateContent_try.
  destruct o as [e | status body].
  - simpl. rewrite filter_emit_false by reflexivity. repeat split.
  - destruct (response_ok status) eqn:Hok; simpl in *; rewrite ?Hok in *.
    + destruct body as [e | m | data]; simpl in *;
        try (rewrite Hf; simpl);
        rewrite filter_emit_false by reflexivity; repeat split.
    + rewrite filter_emit_false by reflexivity. repeat split.
Qed.

(** X5. What is displayed for a thrown value: when the fetch rejects, or
    the body of a 2xx response fails to parse, with an [Error] of message
    [m], the error text is [m] itself (empty when [m] is empty); when the
    thrown value is not an [Error] it is [Failed to generate content]; when
    the body of a 2xx response is [null] it is the engine's [TypeError]
    message. *)
Theorem generation_thrown_text (w : World) (i : nat) (t : Ticket)
    (status : N) (e : Thrown) (m : jsstring) (now : Z) :
  nth_error (pendingGen w) i = Some t ->
  response_ok status = true ->
  let text :=
    match e with
    | ErrorObject message => message
    | NotAnError => "Failed to generate content"
    end in
  (exists w',
      step (GenerationSettled i (Rejected e) now) w = Some w'
      /\ error (ui w') = text)
  /\ (exists w',
         step (GenerationSettled i (Responded status (BodyRejects e)) now) w
         = Some w'
         /\ error (ui w') = text)
  /\ (exists w',
         step (GenerationSettled i (Responded status (BodyNull m)) now) w
         = Some w'
         /\ error (ui w') = m).
Proof.
  intros Ht Hok text. unfold step. rewrite Ht.
  unfold generateContent_settle, generateContent_try. rewrite Hok.
  repeat split; eexists; (split; [reflexivity|]); destruct e; reflexivity.
Qed.

Lemma error_message_or_truthy (v : Js.Value) (s : jsstring) :
  message_is_text v = true -> Js.truthy s = true ->
  Js.truthy (Js.error_message_or v s) = true.
Proof.
  intros Hv H. unfold Js.error_message_or.
  destruct v as [|[|u r]|[] text]; simpl; auto. discriminate Hv.
Qed.

(** X6. After an HTTP error (status outside 2xx) the error text is never
    empty, and neither is it after a 2xx body whose status is not [success]
    and whose message is a string, absent or falsy: the error banner is
    rendered. (A truthy message that is not a string is displayed by its
    text, which can be empty.) *)
Theorem error_banner_shown (w : World) (i : nat) (t : Ticket) (status : N)
    (body : Body GenerationResult) (data : GenerationResult) (now : Z) :
  nth_error (pendingGen w) i = Some t ->
  response_ok status = false
  \/ (body = BodyValue data
      /\ status_is_success (res_status data) = false
      /\ message_is_text (res_message data) = true) ->
  exists w',
    step (GenerationSettled i (Responded status body) now) w = Some w'
    /\ Js.truthy (error (ui w')) = true.
Proof.
  intros Ht H. unfold step. rewrite Ht. eexists. split; [reflexivity|].
  unfold generateContent_settle, generateContent_try.
  destruct (response_ok status) eqn:Hok; simpl; [|reflexivity].
  destruct H as [H | (-> & Hs & Hm)]; [discriminate H|].
  rewrite Hs. simpl. now apply error_message_or_truthy.
Qed.

(** X7. A success whose body carries no content, or the empty content,
    still shows the success toast and replaces the displayed content, after
    which the result pane is not rendered: the download, copy and share
    buttons cannot be clicked. *)
Theorem empty_success_hides_result (w : World) (i : nat) (t : Ticket)
    (status : N) (data : GenerationResult) (now : Z) :
  nth_error (pendingGen w) i = Some t ->
  response_ok status = true ->
  res_status data = Some "success" ->
  res_content data = None \/ res_content data = Some "" ->
  exists w',
    step (GenerationSettled i (Responded status (BodyValue data)) now) w
    = Some w'
    /\ content (ui w') = res_content data
    /\ In (ToastSuccess "Content generated successfully!") (trace w')
    /\ step ClickDownload w' = None
    /\ forall (calls : list PlatformCall) (n : nat) (can_share : bool),
         act ClickCopy (mkPage w' calls n) = None
         /\ act (ClickShare can_share) (mkPage w' calls n) = None.
Proof.
  intros Ht Hok Hs Hc. unfold step at 1. rewrite Ht.
  eexists. split; [reflexivity|].
  unfold generateContent_settle, generateContent_try. rewrite Hok, Hs.
  simpl. unfold content_shown. simpl.
  split; [reflexivity|]. split.
  - apply in_or_app. left. apply in_or_app. right. now left.
  - destruct Hc as [-> | ->]; repeat split.
Qed.

(** X8. Selecting a history item while a generation is in flight does not
    cancel the request: it stays in flight, and when it later succeeds the
    generated content replaces the item's content while the topic stays the
    item's. *)
Theorem history_selection_does_not_cancel (w : World) (i : nat) (t : Ticket)
    (item : HistoryItem) (status : N) (data : GenerationResult) (c : jsstring)
    (now : Z) :
  nth_error (pendingGen w) i = Some t ->
  response_ok status = true ->
  res_status data = Some "success" ->
  res_content data = Some c ->
  pendingGen (loadFromHistory item w) = pendingGen w
  /\ loading (ui (loadFromHistory item w)) = loading (ui w)
  /\ exists w',
       step (GenerationSettled i (Responded status (BodyValue data)) now)
            (loadFromHistory item w) = Some w'
       /\ content (ui w') = Some c
       /\ topic (ui w') = item_topic item.
Proof.
  intros Ht Hok Hs Hc. split; [reflexivity|]. split; [reflexivity|].
  unfold step.
  change (pendingGen (loadFromHistory item w)) with (pendingGen w).
  rewrite Ht. eexists. split; [reflexivity|].
  unfold generateContent_settle, generateContent_try. rewrite Hok, Hs.
  simpl. now rewrite Hc.
Qed.

(** X9. The download is named after the topic field as it is when the
    button is clicked, not after the topic that was sent: when the topic [v1]
    is submitted, the field is edited to [v2] while the request is in flight,
    and the request succeeds with content [c], the download carries [c]
    under the file name derived from [v2]. *)
Theorem download_names_current_topic (w : World) (v1 v2 c : jsstring)
    (t0 t1 : Z) :
  reachable w ->
  loading (ui w) = false ->
  v1 <> "" ->
  c <> "" ->
  exists w',
    run [ChangeTopic v1; ClickGenerate t0; ChangeTopic v2;
         GenerationSettled 0
           (Responded 200
              (BodyValue (mkGenerationResult (Some "success") (Some c)
                                            Js.Undefined)))
           t1;
         ClickDownload] w = Some w'
    /\ dispatched (mkGenerationRequest v1) w'
    /\ In (Download (download_filename v2) (Some c)) (trace w').
Proof.
  intros R L Hv Hc.
  pose proof (reachable_invariant w R) as I.
  unfold lifecycle_invariant in I. rewrite L in I.
  destruct w as [[tp ct ld er gt sc sh] pg ph tr]. simpl in *. subst ld pg.
  destruct v1 as [|a v1]; [contradiction|].
  destruct c as [|b c]; [contradiction|].
  eexists. split; [reflexivity|]. unfold dispatched. simpl.
  split; rewrite !in_app_iff; simpl; tauto.
Qed.

(** ** The history panel *)

(** X10. With the history panel open, a click on the [i]-th entry, for [i]
    below 5 and below the number of cached items, loads exactly the [i]-th
    cached item. *)
Theorem history_selection_in_range (w : World) (i : nat) :
  showHistory (ui w) = true ->
  (i < 5)%nat ->
  (i < length (savedContents (ui w)))%nat ->
  exists item,
    nth_error (savedContents (ui w)) i = Some item
    /\ step (ClickHistoryItem i) w = Some (loadFromHistory item w).
Proof.
  intros Hs H5 Hlen.
  destruct (nth_error (savedContents (ui w)) i) as [item|] eqn:E.
  - exists item. split; [reflexivity|].
    unfold step, displayed_history. rewrite Hs, nth_error_firstn.
    apply Nat.ltb_lt in H5. now rewrite H5, E.
  - apply nth_error_None in E. lia.
Qed.

(** X11. With the history panel open, at most five entries are offered:
    there is no entry to click at an index of 5 or more, nor past the end of
    the cache, so the sixth and later cached items cannot be loaded from the
    open panel, however many items are cached. *)
Theorem history_selection_out_of_range (w : World) (i : nat) :
  showHistory (ui w) = true ->
  (5 <= i)%nat \/ (length (savedContents (ui w)) <= i)%nat ->
  step (ClickHistoryItem i) w = None
  /\ (length (displayed_history (ui w)) <= 5)%nat.
Proof.
  intros Hs H. split.
  - unfold step, displayed_history. rewrite Hs, nth_error_firstn.
    destruct (Nat.ltb i 5) eqn:E5; [|reflexivity].
    apply Nat.ltb_lt in E5.
    destruct H as [H | H]; [lia|].
    apply nth_error_None in H. now rewrite H.
  - unfold displayed_history. rewrite length_firstn. lia.
Qed.

(** X12. A history response whose body has status [success] replaces the
    whole cached list by the list it carries (nothing is appended or
    merged), whatever the HTTP status code of the response, touches no other
    cell and shows nothing. *)
Theorem refresh_success_replaces (w : World) (status : N)
    (items : list HistoryItem) :
  (0 < pendingHist w)%nat ->
  exists w',
    step (HistorySettled
            (Responded status
               (BodyValue (mkHistoryReply (Some "success") items)))) w
    = Some w'
    /\ ui w' = setSavedContents items (ui w)
    /\ savedContents (ui w') = items
    /\ trace w' = trace w
    /\ pendingGen w' = pendingGen w
    /\ pendingHist w' = pred (pendingHist w).
Proof.
  intro Hp. unfold step. destruct (pendingHist w) as [|n]; [lia|].
  eexists. split; [reflexivity|]. repeat split.
Qed.

(** ** Which events write which cell *)

Lemma generateContent_settle_frame (t0 : Z) (o : Settled GenerationResult)
    (now : Z) (w : World) :
  let w' := generateContent_settle t0 o now w in
  topic (ui w') = topic (ui w)
  /\ savedContents (ui w') = savedContents (ui w)
  /\ showHistory (ui w') = showHistory (ui w).
Proof. settle_cases o; repeat split. Qed.

Lemma fetchSavedContents_settle_cells (o : Settled HistoryReply) (w : World) :
  let w' := fetchSavedContents_settle o w in
  content (ui w') = content (ui w)
  /\ generationTime (ui w') = generationTime (ui w)
  /\ showHistory (ui w') = showHistory (ui w).
Proof.
  destruct o as [e | status [e | m | data]]; simpl; auto.
  destruct (status_is_success (hist_status data)); simpl; auto.
Qed.

Ltac cells_cases :=
  repeat apply conj;
  (let H := fresh "H" in
   intro H; try discriminate H; repeat split; solve [reflexivity | assumption]).

(** X13. Each cell is written only by the events whose handlers call its
    setter: the topic by typing and by a history selection; the content by a
    history selection and by the settlement of a generation; the loading
    flag and the error text by the start and the settlement of a generation;
    the elapsed time by the settlement of a generation; the cached history
    by the settlement of a refresh; the panel flag by the toggle and by a
    history selection. Every other event leaves the cell as it was. *)
Theorem cells_written_by (e : Event) (w w' : World) :
  step e w = Some w' ->
  (calls_setTopic e = false -> topic (ui w') = topic (ui w))
  /\ (calls_setContent e = false -> content (ui w') = content (ui w))
  /\ (calls_setLoading_or_setError e = false ->
      loading (ui w') = loading (ui w) /\ error (ui w') = error (ui w))
  /\ (calls_setGenerationTime e = false ->
      generationTime (ui w') = generationTime (ui w))
  /\ (calls_setSavedContents e = false ->
      savedContents (ui w') = savedContents (ui w))
  /\ (calls_setShowHistory e = false ->
      showHistory (ui w') = showHistory (ui w)).
Proof.
  destruct e as [v | key now | now | | i | item | | i o now | o]; simpl; intro Hs.
  - injection Hs as <-. cells_cases.
  - injection Hs as <-. unfold onKeyPress.
    destruct (_ && _ && _);
      cells_cases.
  - injection Hs as <-. unfold onClickGenerate.
    destruct (generate_disabled (ui w));
      cells_cases.
  - injection Hs as <-. cells_cases.
  - destruct (showHistory (ui w)); [|discriminate].
    destruct (nth_error _ i); [|discriminate].
    injection Hs as <-. cells_cases.
  - destruct (showHistory (ui w)); [discriminate|].
    injection Hs as <-. cells_cases.
  - destruct (content_shown (ui w)); [|discriminate].
    injection Hs as <-. cells_cases.
  - destruct (nth_error (pendingGen w) i) as [t|]; [|discriminate].
    injection Hs as <-.
    destruct (generateContent_settle_frame (startTime t) o now (take_ticket i w))
      as (Ht & Hsc & Hsh).
    cells_cases.
  - destruct (pendingHist w) as [|n]; [discriminate|].
    injection Hs as <-.
    destruct (fetchSavedContents_settle_frame o
                (mkWorld (ui w) (pendingGen w) n (trace w)))
      as (_ & Hl & He & Ht).
    destruct (fetchSavedContents_settle_cells o
                (mkWorld (ui w) (pendingGen w) n (trace w)))
      as (Hc & Hg & Hsh).
    cells_cases.
Qed.

(** ** Invariants of the whole page *)

Lemma remove_nth_length {A : Type} (l : list A) (i : nat) (x : A) :
  nth_error l i = Some x -> length l = S (length (remove_nth i l)).
Proof.
  revert i; induction l as [|y l IH]; intros [|i]; simpl; try discriminate.
  - reflexivity.
  - intro H. now rewrite (IH i H) at 1.
Qed.

Ltac count_solve :=
  unfold accounting, count in *; simpl in *;
  rewrite ?filter_app, ?length_app in *; simpl in *; lia.

Lemma generateContent_call_accounting (now : Z) (w : World) :
  accounting w -> accounting (generateContent_call now w).
Proof. intro A. count_solve. Qed.

Lemma step_preserves_accounting (e : Event) (w w' : World) :
  accounting w -> step e w = Some w' -> accounting w'.
Proof.
  intros A Hs.
  destruct e as [v | key now | now | | i | item | | i o now | o]; simpl in Hs.
  - injection Hs as <-. exact A.
  - injection Hs as <-. rewrite onKeyPress_cases.
    destruct (Js.eqb key "Enter"); [|exact A].
    unfold onClickGenerate. destruct (generate_disabled (ui w)); [exact A|].
    now apply generateContent_call_accounting.
  - injection Hs as <-.
    unfold onClickGenerate. destruct (generate_disabled (ui w)); [exact A|].
    now apply generateContent_call_accounting.
  - injection Hs as <-. exact A.
  - destruct (showHistory (ui w)); [|discriminate].
    destruct (nth_error _ i); [|discriminate].
    injection Hs as <-. count_solve.
  - destruct (showHistory (ui w)); [discriminate|].
    injection Hs as <-. count_solve.
  - destruct (content_shown (ui w)); [|discriminate].
    injection Hs as <-. count_solve.
  - destruct (nth_error (pendingGen w) i) as [t|] eqn:Ht; [|discriminate].
    injection Hs as <-.
    pose proof (remove_nth_length _ _ _ Ht) as Hl.
    settle_cases o; count_solve.
  - destruct (pendingHist w) as [|n] eqn:Hp; [discriminate|].
    injection Hs as <-.
    destruct o as [e | status [e | m | data]]; simpl;
      try destruct (status_is_success (hist_status data)); count_solve.
Qed.

Lemma act_preserves (P : World -> Prop) (a : Action) (p p' : Page) :
  (forall e w w', P w -> step e w = Some w' -> P w') ->
  (forall e w,
      is_network_call e = false -> is_error_toast e = false ->
      is_generated_toast e = false -> P w -> P (emit e w)) ->
  P (component p) -> act a p = Some p' -> P (component p').
Proof.
  intros Hstep Hemit HP Ha.
  destruct a as [e | | can_share | o]; simpl in Ha.
  - destruct (step e (component p)) as [w'|] eqn:E; [|discriminate].
    injection Ha as <-. simpl. now apply (Hstep e (component p)).
  - destruct (content_shown (ui (component p))); [|discriminate].
    injection Ha as <-. simpl. now apply Hemit.
  - destruct (content (ui (component p))) as [c|]; [|discriminate].
    destruct (Js.truthy c); [|discriminate].
    injection Ha as <-. destruct can_share; simpl; [exact HP|].
    now apply Hemit.
  - destruct (pendingShare p) as [|n]; [discriminate|].
    injection Ha as <-. destruct o as [err|]; simpl; [|exact HP].
    now apply Hemit.
Qed.

Lemma page_reachable_lifecycle (p : Page) :
  page_reachable p -> lifecycle_invariant (component p).
Proof.
  induction 1 as [| a p p' Hp IH Ha]; [reflexivity|].
  apply (act_preserves lifecycle_invariant a p p');
    [ apply step_preserves_lifecycle
    | intros e w _ _ _ I; exact I
    | exact IH
    | exact Ha ].
Qed.

Lemma page_reachable_accounting (p : Page) :
  page_reachable p -> accounting (component p).
Proof.
  induction 1 as [| a p p' Hp IH Ha].
  - unfold accounting, count. simpl. lia.
  - apply (act_preserves accounting a p p');
      [ apply step_preserves_accounting | | exact IH | exact Ha ].
    intros e w Hn He Hg A.
    assert (Hpost : is_post e = false) by (destruct e; auto; discriminate).
    assert (Hget : is_get e = false) by (destruct e; auto; discriminate).
    unfold accounting, count in *. simpl.
    rewrite !filter_app, !length_app. simpl.
    rewrite Hpost, Hget, He, Hg. simpl. lia.
Qed.

Lemma perform_reachable (acts : list Action) (p p' : Page) :
  page_reachable p -> perform acts p = Some p' -> page_reachable p'.
Proof.
  revert p; induction acts as [|a acts IH]; intros p Hp; simpl.
  - now intros [= <-].
  - destruct (act a p) as [p1|] eqn:E; [|discriminate].
    apply IH. now apply (page_reachable_act a p).
Qed.

(** X14. Whatever the user does on the page (typing, keys, clicks on any
    button, in any order with the settlements of the fetches and of the
    share sheet), the loading flag is set exactly while one generation
    request is in flight, never more than one is, and while it is set the
    error text is empty and the generate button is disabled. *)
Theorem page_loading_invariant (p : Page) :
  page_reachable p ->
  let w := component p in
  length (pendingGen w) = (if loading (ui w) then 1 else 0)%nat
  /\ (loading (ui w) = true ->
      error (ui w) = "" /\ generate_disabled (ui w) = true).
Proof.
  intro R. apply page_reachable_lifecycle in R.
  unfold lifecycle_invariant in R. simpl.
  unfold generate_disabled.
  destruct (loading (ui (component p))).
  - destruct R as [Hl He]. split; [exact Hl|]. intros _. now split.
  - rewrite R. split; [reflexivity | discriminate].
Qed.

(** X15. Whatever the user does on the page, every generation request that
    was dispatched is either still in flight or has ended in exactly one
    toast (the success toast or an error toast), and the history was
    requested exactly once at mount and once per successful generation,
    never after a failed one. *)
Theorem page_accounting (p : Page) :
  page_reachable p ->
  let w := component p in
  count is_post w
  = (count is_error_toast w + count is_generated_toast w
     + length (pendingGen w))%nat
  /\ count is_get w = S (count is_generated_toast w)
  /\ (pendingHist w <= count is_get w)%nat.
Proof.
  intro R. exact (page_reachable_accounting p R).
Qed.

(** ** Copy and share *)

Lemma take_length (n : nat) (s : jsstring) :
  Js.length (Js.take n s) = Nat.min (Js.length s) n.
Proof.
  revert s; induction n as [|n IH]; intros [|u s]; simpl; auto.
Qed.

Lemma take_short (n : nat) (s : jsstring) :
  (Js.length s <= n)%nat -> Js.take n s = s.
Proof.
  revert s; induction n as [|n IH]; intros [|u s]; simpl; auto.
  - lia.
  - intro H. rewrite IH; [reflexivity | lia].
Qed.

Lemma take_split (n : nat) (s : jsstring) :
  exists rest, s = Js.take n s ++ rest.
Proof.
  revert s; induction n as [|n IH]; intros [|u s]; simpl.
  - now exists "".
  - now exists (Unit u s).
  - now exists "".
  - destruct (IH s) as [rest Hr]. exists rest. now rewrite <- Hr.
Qed.

(** X16. The text handed to the share sheet is the first 200 characters of
    the content followed by three dots: it is the whole content plus the
    dots when the content has at most 200 characters (the dots are added
    even when nothing was cut), and it never has more than 203 characters. *)
Theorem share_text_shape (c : jsstring) :
  share_text c
  = (if (Js.length c <=? 200)%nat then c else Js.substring 0 200 c) ++ "..."
  /\ Js.length (share_text c) = (Nat.min (Js.length c) 200 + 3)%nat
  /\ exists rest, c = Js.substring 0 200 c ++ rest.
Proof.
  unfold share_text.
  change (Js.substring 0 200 c) with (Js.take 200 c).
  split; [|split].
  - destruct (Js.length c <=? 200)%nat eqn:E; [|reflexivity].
    apply Nat.leb_le in E. now rewrite take_short.
  - rewrite append_length, take_length. reflexivity.
  - apply take_split.
Qed.

(** X17. Copy and share never change a cell of the component and never
    start a fetch. Copy writes the content to the clipboard and shows one
    success toast. Share, where the browser offers it, opens the share sheet
    with the topic as title and shows nothing, neither when the sheet is
    opened nor when it settles: a rejection (the user cancels) only writes
    to the console. Where the browser does not offer it, share is copy. *)
Theorem output_actions_frame (p : Page) (c : jsstring) (o : option Thrown) :
  let copied := copyToClipboard p in
  let opened := shareContent_call true c p in
  let closed := shareContent_settle o opened in
  ui (component copied) = ui (component p)
  /\ network_calls (component copied) = network_calls (component p)
  /\ platform copied
     = (platform p ++ [ClipboardWriteText (content (ui (component p)))])%list
  /\ toasts (component copied)
     = (toasts (component p)
          ++ [ToastSuccess "Content copied to clipboard!"])%list
  /\ component opened = component p
  /\ platform opened
     = (platform p
          ++ [NavigatorShare (topic (ui (component p))) (share_text c)])%list
  /\ ui (component closed) = ui (component p)
  /\ toasts (component closed) = toasts (component p)
  /\ network_calls (component closed) = network_calls (component p)
  /\ platform closed = platform opened
  /\ shareContent_call false c p = copied.
Proof.
  unfold toasts, network_calls. simpl.
  rewrite !filter_app. simpl. rewrite app_nil_r.
  repeat split; destruct o as [err|]; simpl;
    rewrite ?filter_app; simpl; rewrite ?app_nil_r; reflexivity.
Qed.

(** ** The message page *)

(** X18. On the message page, the message shown after the fetch has settled
    is the body's [message] field exactly when a 2xx response with a readable
    body arrived (an absent field gives [undefined]); for every other outcome
    it is the fixed failure text and the cause is written once to the
    console. For a status outside 2xx the cause names the status code and the
    body is not read. *)
Theorem fetchData_outcomes (o : Settled HomePage.MessageReply) :
  (if HomePage.fetch_succeeded o
   then exists status data,
       o = Responded status (BodyValue data)
       /\ HomePage.fetchData_settle o = (HomePage.reply_message data, [])
   else exists e,
       HomePage.fetchData_settle o
       = (Some HomePage.failure_text, [ConsoleError "Failed to fetch data:" e]))
  /\ forall status body,
       HomePage.fetchData_settle (Responded status body)
       = if response_ok status
         then HomePage.fetchData_settle (Responded 200 body)
         else (Some HomePage.failure_text,
               [ConsoleError "Failed to fetch data:"
                  (ErrorObject ("HTTP error! status: "
                                ++ Js.of_number status))]).
Proof.
  split.
  - destruct o as [e | status [e | m | data]]; simpl;
      try destruct (response_ok status) eqn:Hok; simpl;
      try (now eexists); now eexists _, _.
  - intros status body. simpl. now destruct (response_ok status).
Qed.

(** ** The error banner and the toasts *)

Lemma step_preserves_announced (e : Event) (w w' : World) :
  error_announced w -> step e w = Some w' -> error_announced w'.
Proof.
  unfold error_announced. intros A Hs.
  assert (Hgrow : forall l : list Effect,
             error (ui w) = "" \/ In (ToastError (error (ui w))) (trace w) ->
             error (ui w) = ""
             \/ In (ToastError (error (ui w))) (trace w ++ l)%list).
  { intros l [H | H]; [now left | right; apply in_or_app; now left]. }
  destruct e as [v | key now | now | | i | item | | i o now | o]; simpl in Hs.
  - injection Hs as <-. exact A.
  - injection Hs as <-. rewrite onKeyPress_cases.
    destruct (Js.eqb key "Enter"); [|exact A].
    unfold onClickGenerate. destruct (generate_disabled (ui w)); [exact A|].
    now left.
  - injection Hs as <-.
    unfold onClickGenerate. destruct (generate_disabled (ui w)); [exact A|].
    now left.
  - injection Hs as <-. exact A.
  - destruct (showHistory (ui w)); [|discriminate].
    destruct (nth_error _ i); [|discriminate].
    injection Hs as <-. simpl. now apply Hgrow.
  - destruct (showHistory (ui w)); [discriminate|].
    injection Hs as <-. simpl. now apply Hgrow.
  - destruct (content_shown (ui w)); [|discriminate].
    injection Hs as <-. simpl. rewrite <- app_assoc. now apply Hgrow.
  - destruct (nth_error (pendingGen w) i) as [t|]; [|discriminate].
    injection Hs as <-.
    settle_cases o; simpl;
      try (right; apply in_or_app; right; now left).
    rewrite <- app_assoc. now apply Hgrow.
  - destruct (pendingHist w) as [|n]; [discriminate|].
    injection Hs as <-.
    destruct o as [err | status [err | m | data]]; simpl;
      try destruct (status_is_success (hist_status data)); simpl;
      try exact A; now apply Hgrow.
Qed.

Lemma page_reachable_announced (p : Page) :
  page_reachable p -> error_announced (component p).
Proof.
  induction 1 as [| a p p' Hp IH Ha]; [now left|].
  apply (act_preserves error_announced a p p');
    [ apply step_preserves_announced | | exact IH | exact Ha ].
  unfold error_announced. intros e w _ _ _ [H | H]; simpl;
    [now left | right; apply in_or_app; now left].
Qed.

(** X19. Whatever the user does on the page, an error text that is
    displayed was also shown as an error toast with the same text. *)
Theorem page_error_announced (p : Page) :
  page_reachable p ->
  error (ui (component p)) = ""
  \/ In (ToastError (error (ui (component p)))) (trace (component p)).
Proof.
  intro R. exact (page_reachable_announced p R).
Qed.

End Platform.

(** ** Witnesses and counterexamples

    They are stated with [Js.lower_ascii] for [toLowerCase]. *)


(** C1 as stated fails: a whitespace-only topic is truthy, so the button is
    enabled and a click dispatches the request and raises the loading flag. *)
Lemma C1_counterexample :
  let w := typed " " in
  is_blank (topic (ui w)) = true
  /\ loading (ui w) = false
  /\ network_calls (onClickGenerate 0 w)
     = (network_calls w ++ [FetchPost (mkGenerationRequest " ")])%list
  /\ loading (ui (onClickGenerate 0 w)) = true.
Proof. repeat split. Qed.

Lemma C1_empty_topic_noop_witness :
  topic (ui mounted) = ""
  /\ onClickGenerate 7 mounted = mounted
  /\ onKeyPress "Enter" 7 mounted = mounted
  /\ network_calls (onClickGenerate 7 mounted) = network_calls mounted
  /\ network_calls (onKeyPress "Enter" 7 mounted) = network_calls mounted.
Proof.
  split; [reflexivity|].
  apply (C1_empty_topic_noop mounted "Enter" 7). reflexivity.
Defined.

Lemma C2_single_flight_witness :
  reachable Js.lower_ascii (clicked "cats" 5)
  /\ (length (pendingGen (clicked "cats" 5)) <= 1)%nat
  /\ (loading (ui (clicked "cats" 5)) = true ->
      forall (key : jsstring) (now : Z),
        onClickGenerate now (clicked "cats" 5) = clicked "cats" 5
        /\ onKeyPress key now (clicked "cats" 5) = clicked "cats" 5
        /\ step Js.lower_ascii
            (ClickGenerate now) (clicked "cats" 5) = Some (clicked "cats" 5)
        /\ step Js.lower_ascii
            (KeyPress key now) (clicked "cats" 5) = Some (clicked "cats" 5)).
Proof.
  assert (R : reachable Js.lower_ascii (clicked "cats" 5)).
  { apply (run_reachable Js.lower_ascii
      [ChangeTopic "cats"; ClickGenerate 5] mounted).
    - apply reachable_mounted.
    - reflexivity. }
  split; [exact R|].
  apply (C2_single_flight Js.lower_ascii (clicked "cats" 5) R).
Defined.

Lemma C9_loading_cleared_witness :
  nth_error (pendingGen (clicked "cats" 5)) 0
  = Some (mkTicket 5 (mkGenerationRequest "cats"))
  /\ exists w',
       step Js.lower_ascii
           (GenerationSettled 0 (Rejected NotAnError) 9) (clicked "cats" 5)
       = Some w'
       /\ loading (ui w') = false.
Proof.
  split; [reflexivity|].
  apply (C9_loading_cleared Js.lower_ascii (clicked "cats" 5) 0
           (mkTicket 5 (mkGenerationRequest "cats"))).
  reflexivity.
Defined.

(** C3 as stated fails: [Date.now()] follows the system clock, which can be
    set back while the request is in flight; with the start read at 1000 and
    the settlement at 500 the elapsed time is the negative number -0.5. *)
Lemma C3_counterexample :
  let data := mkGenerationResult (Some "success") (Some "# Hi") Js.Undefined in
  response_ok 200 = true
  /\ exists w',
       step Js.lower_ascii
            (GenerationSettled 0 (Responded 200 (BodyValue data)) 500)
            (clicked "cats" 1000) = Some w'
       /\ content (ui w') = Some "# Hi"
       /\ generationTime (ui w') = S754_finite true 4503599627370496 (-53)
       /\ Js.lt_zero (generationTime (ui w')) = true
       /\ Js.ge_zero (generationTime (ui w')) = false.
Proof.
  simpl. split; [reflexivity|]. eexists. repeat split.
Qed.

Lemma C3_success_witness :
  let data := mkGenerationResult (Some "success") (Some "# Hi") Js.Undefined in
  reachable Js.lower_ascii (clicked "cats" 5)
  /\ exists w',
       step Js.lower_ascii
           (GenerationSettled 0 (Responded 200 (BodyValue data)) 1505)
            (clicked "cats" 5) = Some w'
       /\ content (ui w') = Some "# Hi"
       /\ generationTime (ui w') = Js.div (Js.of_Z (1505 - 5)) (Js.of_Z 1000)
       /\ ((5 <= 1505)%Z -> Js.ge_zero (generationTime (ui w')) = true)
       /\ error (ui w') = ""
       /\ loading (ui w') = false
       /\ trace w'
          = (trace (clicked "cats" 5)
               ++ [ToastSuccess "Content generated successfully!"]
               ++ [FetchGet])%list
       /\ pendingHist w' = S (pendingHist (clicked "cats" 5))
       /\ pendingGen w' = [].
Proof.
  intro data.
  assert (R : reachable Js.lower_ascii (clicked "cats" 5)).
  { apply (run_reachable Js.lower_ascii
      [ChangeTopic "cats"; ClickGenerate 5] mounted).
    - apply reachable_mounted.
    - reflexivity. }
  split; [exact R|].
  apply (C3_success Js.lower_ascii (clicked "cats" 5) 0
           (mkTicket 5 (mkGenerationRequest "cats")) 200 data "# Hi" 1505 R).
  - reflexivity.
  - reflexivity.
  - reflexivity.
  - reflexivity.
Defined.

Example elapsed_one_and_a_half :
  elapsed_seconds 5 1505 = S754_finite false 6755399441055744 (-52).
Proof. reflexivity. Qed.


Example http_500_error_text :
  option_map (fun w => error (ui w))
    (step Js.lower_ascii
        (GenerationSettled 0 (Responded 500 (BodyRejects NotAnError)) 9)
          (clicked "cats" 5))
  = Some "API request failed with status 500".
Proof. reflexivity. Qed.

(** C5 as stated fails for the empty message: [data.message || ...] replaces
    a falsy message by the default text. *)
Lemma C5_counterexample :
  let m := "" in
  let data := mkGenerationResult (Some "error") None (Js.Str m) in
  response_ok 200 = true
  /\ status_is_success (res_status data) = false
  /\ exists w',
       step Js.lower_ascii
           (GenerationSettled 0 (Responded 200 (BodyValue data)) 9)
            (clicked "cats" 5) = Some w'
       /\ error (ui w') = "Unknown error occurred"
       /\ error (ui w') <> m.
Proof.
  simpl. repeat split. eexists. repeat split. discriminate.
Qed.

Lemma C5_service_error_witness :
  let data := mkGenerationResult (Some "error") None (Js.Str "boom") in
  nth_error (pendingGen (clicked "cats" 5)) 0
  = Some (mkTicket 5 (mkGenerationRequest "cats"))
  /\ response_ok 200 = true
  /\ status_is_success (res_status data) = false
  /\ exists w',
       step Js.lower_ascii
           (GenerationSettled 0 (Responded 200 (BodyValue data)) 9)
            (clicked "cats" 5) = Some w'
       /\ (forall m : jsstring,
              res_message data = Js.Str m -> m <> "" -> error (ui w') = m)
       /\ (res_message data = Js.Str "" \/ res_message data = Js.Undefined ->
           error (ui w') = "Unknown error occurred")
       /\ content (ui w') = content (ui (clicked "cats" 5))
       /\ trace w'
          = (trace (clicked "cats" 5) ++ [ToastError (error (ui w'))])%list.
Proof.
  intro data.
  split; [reflexivity|]. split; [reflexivity|]. split; [reflexivity|].
  apply (C5_service_error Js.lower_ascii (clicked "cats" 5) 0
           (mkTicket 5 (mkGenerationRequest "cats")) 200 data 9); reflexivity.
Defined.

Example service_error_boom :
  option_map (fun w => error (ui w))
    (step Js.lower_ascii (GenerationSettled 0
             (Responded 200
                (BodyValue (mkGenerationResult (Some "error") None
                                               (Js.Str "boom")))) 9)
          (clicked "cats" 5))
  = Some "boom".
Proof. reflexivity. Qed.

(** C6 as stated fails: [fetchSavedContents] never reads [response.ok], so a
    response that is not successful (HTTP 500) but whose body has status
    [success] replaces the six cached items by the list it carries. *)
Lemma C6_counterexample :
  let o := Responded 500 (BodyValue (mkHistoryReply (Some "success") [])) in
  run Js.lower_ascii
      [HistorySettled
         (Responded 200
            (BodyValue (mkHistoryReply (Some "success") six_items)));
       ChangeTopic "cats"; ClickGenerate 5;
       GenerationSettled 0
         (Responded 200
            (BodyValue (mkGenerationResult (Some "success") (Some "# Cats")
                                           Js.Undefined)))
         9]
      mounted = Some refreshing
  /\ savedContents (ui refreshing) = six_items
  /\ refresh_failed o = true
  /\ exists w',
       step Js.lower_ascii (HistorySettled o) refreshing = Some w'
       /\ savedContents (ui w') = []
       /\ savedContents (ui w') <> savedContents (ui refreshing).
Proof.
  simpl. repeat split. eexists. repeat split. discriminate.
Qed.

Lemma C6_stale_cache_witness :
  let o := Responded 500 (BodyValue (mkHistoryReply None [])) in
  (0 < pendingHist refreshing)%nat
  /\ body_says_success o = false
  /\ exists w',
       step Js.lower_ascii (HistorySettled o) refreshing = Some w'
       /\ savedContents (ui w') = savedContents (ui refreshing)
       /\ error (ui w') = error (ui refreshing)
       /\ ui w' = ui refreshing
       /\ toasts w' = toasts refreshing
       /\ network_calls w' = network_calls refreshing.
Proof.
  intro o.
  split; [simpl; lia|]. split; [reflexivity|].
  apply (C6_stale_cache Js.lower_ascii refreshing o).
  - simpl. lia.
  - reflexivity.
Defined.

(** C7 as stated fails: the topic is sent as typed, leading and trailing
    whitespace included. *)
Lemma C7_counterexample :
  let w := clicked " hi " 0 in
  let req := mkGenerationRequest " hi " in
  reachable Js.lower_ascii w
  /\ dispatched req w
  /\ is_trimmed (req_topic req) = false
  /\ req_topic req <> Js.trim " hi ".
Proof.
  simpl. split; [|split; [|split]].
  - apply (run_reachable Js.lower_ascii
      [ChangeTopic " hi "; ClickGenerate 0] mounted).
    + apply reachable_mounted.
    + reflexivity.
  - unfold dispatched. simpl. auto.
  - reflexivity.
  - discriminate.
Qed.

Lemma C7_dispatched_topic_witness :
  let w := clicked " hi " 0 in
  let req := mkGenerationRequest " hi " in
  reachable Js.lower_ascii w
  /\ dispatched req w
  /\ req_topic req <> ""
  /\ (forall (w0 : World) (now : Z),
         generate_disabled (ui w0) = false ->
         trace (onClickGenerate now w0)
         = (trace w0 ++ [FetchPost (mkGenerationRequest (topic (ui w0)))])%list
         /\ trace (onKeyPress "Enter" now w0)
            = (trace w0
                 ++ [FetchPost (mkGenerationRequest (topic (ui w0)))])%list).
Proof.
  intros w req.
  assert (R : reachable Js.lower_ascii w).
  { apply (run_reachable Js.lower_ascii
      [ChangeTopic " hi "; ClickGenerate 0] mounted).
    - apply reachable_mounted.
    - reflexivity. }
  assert (D : dispatched req w).
  { unfold dispatched. simpl. auto. }
  split; [exact R|]. split; [exact D|].
  apply (C7_dispatched_topic Js.lower_ascii w req R D).
Defined.

Lemma generation_failure_frame_witness :
  nth_error (pendingGen (clicked "cats" 5)) 0
  = Some (mkTicket 5 (mkGenerationRequest "cats"))
  /\ generation_succeeded (Responded 200 (BodyNull "data is null")) = false
  /\ exists w',
       step Js.lower_ascii
           (GenerationSettled 0 (Responded 200 (BodyNull "data is null")) 9)
            (clicked "cats" 5) = Some w'
       /\ topic (ui w') = topic (ui (clicked "cats" 5))
       /\ content (ui w') = content (ui (clicked "cats" 5))
       /\ generationTime (ui w') = generationTime (ui (clicked "cats" 5))
       /\ savedContents (ui w') = savedContents (ui (clicked "cats" 5))
       /\ showHistory (ui w') = showHistory (ui (clicked "cats" 5))
       /\ pendingHist w' = pendingHist (clicked "cats" 5)
       /\ network_calls w' = network_calls (clicked "cats" 5)
       /\ trace w'
          = (trace (clicked "cats" 5) ++ [ToastError (error (ui w'))])%list.
Proof.
  split; [reflexivity|]. split; [reflexivity|].
  apply (generation_failure_frame Js.lower_ascii (clicked "cats" 5) 0
           (mkTicket 5 (mkGenerationRequest "cats"))); reflexivity.
Defined.

Lemma generation_thrown_text_witness :
  nth_error (pendingGen (clicked "cats" 5)) 0
  = Some (mkTicket 5 (mkGenerationRequest "cats"))
  /\ response_ok 204 = true
  /\ (exists w',
         step Js.lower_ascii
             (GenerationSettled 0 (Rejected (ErrorObject "Failed to fetch")) 9)
              (clicked "cats" 5) = Some w'
         /\ error (ui w') = "Failed to fetch")
  /\ (exists w',
         step Js.lower_ascii (GenerationSettled 0
                 (Responded 204 (BodyRejects (ErrorObject "Failed to fetch"))) 9)
              (clicked "cats" 5) = Some w'
         /\ error (ui w') = "Failed to fetch")
  /\ (exists w',
         step Js.lower_ascii
             (GenerationSettled 0 (Responded 204 (BodyNull "null body")) 9)
              (clicked "cats" 5) = Some w'
         /\ error (ui w') = "null body").
Proof.
  split; [reflexivity|]. split; [reflexivity|].
  apply (generation_thrown_text Js.lower_ascii (clicked "cats" 5) 0
           (mkTicket 5 (mkGenerationRequest "cats")) 204
           (ErrorObject "Failed to fetch") "null body" 9); reflexivity.
Defined.

Lemma error_banner_shown_witness :
  let data := mkGenerationResult None None (Js.Str "") in
  nth_error (pendingGen (clicked "cats" 5)) 0
  = Some (mkTicket 5 (mkGenerationRequest "cats"))
  /\ (response_ok 200 = false
      \/ (BodyValue data = BodyValue data
          /\ status_is_success (res_status data) = false
          /\ message_is_text (res_message data) = true))
  /\ exists w',
       step Js.lower_ascii
            (GenerationSettled 0 (Responded 200 (BodyValue data)) 9)
            (clicked "cats" 5) = Some w'
       /\ Js.truthy (error (ui w')) = true.
Proof.
  intro data.
  assert (H : response_ok 200 = false
              \/ (BodyValue data = BodyValue data
                  /\ status_is_success (res_status data) = false
                  /\ message_is_text (res_message data) = true)).
  { right. repeat split. }
  split; [reflexivity|]. split; [exact H|].
  apply (error_banner_shown Js.lower_ascii (clicked "cats" 5) 0
           (mkTicket 5 (mkGenerationRequest "cats")) 200 (BodyValue data)
           data 9); [reflexivity | exact H].
Defined.

Lemma empty_success_hides_result_witness :
  let data := mkGenerationResult (Some "success") None Js.Undefined in
  nth_error (pendingGen (clicked "cats" 5)) 0
  = Some (mkTicket 5 (mkGenerationRequest "cats"))
  /\ response_ok 200 = true
  /\ exists w',
       step Js.lower_ascii
           (GenerationSettled 0 (Responded 200 (BodyValue data)) 9)
            (clicked "cats" 5) = Some w'
       /\ content (ui w') = res_content data
       /\ In (ToastSuccess "Content generated successfully!") (trace w')
       /\ step Js.lower_ascii ClickDownload w' = None
       /\ forall (calls : list PlatformCall) (n : nat) (can_share : bool),
            act Js.lower_ascii ClickCopy (mkPage w' calls n) = None
            /\ act Js.lower_ascii
                (ClickShare can_share) (mkPage w' calls n) = None.
Proof.
  intro data.
  split; [reflexivity|]. split; [reflexivity|].
  apply (empty_success_hides_result Js.lower_ascii (clicked "cats" 5) 0
           (mkTicket 5 (mkGenerationRequest "cats")) 200 data 9).
  - reflexivity.
  - reflexivity.
  - reflexivity.
  - left. reflexivity.
Defined.

Lemma history_selection_does_not_cancel_witness :
  let data := mkGenerationResult (Some "success") (Some "# Cats") Js.Undefined in
  let item := mkHistoryItem 3 "dogs" "# Dogs" "2025-01-01" in
  let w := clicked "cats" 5 in
  nth_error (pendingGen w) 0 = Some (mkTicket 5 (mkGenerationRequest "cats"))
  /\ pendingGen (loadFromHistory item w) = pendingGen w
  /\ loading (ui (loadFromHistory item w)) = loading (ui w)
  /\ exists w',
       step Js.lower_ascii
           (GenerationSettled 0 (Responded 200 (BodyValue data)) 9)
            (loadFromHistory item w) = Some w'
       /\ content (ui w') = Some "# Cats"
       /\ topic (ui w') = item_topic item.
Proof.
  intros data item w.
  split; [reflexivity|].
  apply (history_selection_does_not_cancel Js.lower_ascii w 0
           (mkTicket 5 (mkGenerationRequest "cats")) item 200 data "# Cats" 9);
    reflexivity.
Defined.

Lemma download_names_current_topic_witness :
  reachable Js.lower_ascii mounted
  /\ loading (ui mounted) = false
  /\ exists w',
       run Js.lower_ascii
           [ChangeTopic "cats"; ClickGenerate 5; ChangeTopic "Big Dogs";
            GenerationSettled 0
              (Responded 200
                 (BodyValue (mkGenerationResult (Some "success")
                                                (Some "# Cats")
                                                Js.Undefined)))
              9;
            ClickDownload] mounted = Some w'
       /\ dispatched (mkGenerationRequest "cats") w'
       /\ In (Download (download_filename Js.lower_ascii
           "Big Dogs") (Some "# Cats"))
             (trace w').
Proof.
  split; [apply reachable_mounted|]. split; [reflexivity|].
  apply (download_names_current_topic Js.lower_ascii
      mounted "cats" "Big Dogs" "# Cats" 5 9).
  - apply reachable_mounted.
  - reflexivity.
  - discriminate.
  - discriminate.
Defined.

Lemma history_selection_in_range_witness :
  showHistory (ui browsing) = true
  /\ (4 < 5)%nat
  /\ (4 < length (savedContents (ui browsing)))%nat
  /\ exists item,
       nth_error (savedContents (ui browsing)) 4 = Some item
       /\ step Js.lower_ascii
           (ClickHistoryItem 4) browsing = Some (loadFromHistory item browsing).
Proof.
  split; [reflexivity|]. split; [lia|]. split; [simpl; lia|].
  apply (history_selection_in_range Js.lower_ascii browsing 4).
  - reflexivity.
  - lia.
  - simpl. lia.
Defined.

Lemma history_selection_out_of_range_witness :
  showHistory (ui browsing) = true
  /\ ((5 <= 5)%nat \/ (length (savedContents (ui browsing)) <= 5)%nat)
  /\ nth_error (savedContents (ui browsing)) 5
     = Some (mkHistoryItem 6 "topic 6" "content 6" "2025-01-01")
  /\ step Js.lower_ascii (ClickHistoryItem 5) browsing = None
  /\ (length (displayed_history (ui browsing)) <= 5)%nat.
Proof.
  assert (H : (5 <= 5)%nat \/ (length (savedContents (ui browsing)) <= 5)%nat).
  { left. lia. }
  split; [reflexivity|]. split; [exact H|]. split; [reflexivity|].
  apply (history_selection_out_of_range Js.lower_ascii browsing 5);
    [reflexivity | exact H].
Defined.

Lemma refresh_success_replaces_witness :
  (0 < pendingHist mounted)%nat
  /\ exists w',
       step Js.lower_ascii (HistorySettled
               (Responded 500
                  (BodyValue (mkHistoryReply (Some "success") six_items))))
            mounted = Some w'
       /\ ui w' = setSavedContents six_items (ui mounted)
       /\ savedContents (ui w') = six_items
       /\ trace w' = trace mounted
       /\ pendingGen w' = pendingGen mounted
       /\ pendingHist w' = pred (pendingHist mounted).
Proof.
  split; [simpl; lia|].
  apply (refresh_success_replaces Js.lower_ascii
      mounted 500 six_items). simpl. lia.
Defined.

Lemma cells_written_by_witness :
  let w' := loadFromHistory
              (mkHistoryItem 1 "topic 1" "content 1" "2025-01-01") browsing in
  step Js.lower_ascii (ClickHistoryItem 0) browsing = Some w'
  /\ (calls_setTopic (ClickHistoryItem 0) = false ->
      topic (ui w') = topic (ui browsing))
  /\ (calls_setContent (ClickHistoryItem 0) = false ->
      content (ui w') = content (ui browsing))
  /\ (calls_setLoading_or_setError (ClickHistoryItem 0) = false ->
      loading (ui w') = loading (ui browsing)
      /\ error (ui w') = error (ui browsing))
  /\ (calls_setGenerationTime (ClickHistoryItem 0) = false ->
      generationTime (ui w') = generationTime (ui browsing))
  /\ (calls_setSavedContents (ClickHistoryItem 0) = false ->
      savedContents (ui w') = savedContents (ui browsing))
  /\ (calls_setShowHistory (ClickHistoryItem 0) = false ->
      showHistory (ui w') = showHistory (ui browsing)).
Proof.
  intro w'. split; [reflexivity|].
  apply (cells_written_by Js.lower_ascii
      (ClickHistoryItem 0) browsing w'). reflexivity.
Defined.

Lemma copied_page_reachable : page_reachable Js.lower_ascii copied_page.
Proof.
  apply (perform_reachable Js.lower_ascii
           [Core (ChangeTopic "cats"); Core (ClickGenerate 5);
            Core (GenerationSettled 0
                    (Responded 200
                       (BodyValue (mkGenerationResult (Some "success")
                                                      (Some "# Cats")
                                                      Js.Undefined)))
                    9);
            ClickCopy] mounted_page).
  - apply page_reachable_mounted.
  - vm_compute. reflexivity.
Qed.

Lemma page_loading_invariant_witness :
  page_reachable Js.lower_ascii copied_page
  /\ length (pendingGen (component copied_page))
     = (if loading (ui (component copied_page)) then 1 else 0)%nat
  /\ (loading (ui (component copied_page)) = true ->
      error (ui (component copied_page)) = ""
      /\ generate_disabled (ui (component copied_page)) = true).
Proof.
  split; [apply copied_page_reachable|].
  apply (page_loading_invariant Js.lower_ascii
      copied_page copied_page_reachable).
Defined.

Lemma page_accounting_witness :
  page_reachable Js.lower_ascii copied_page
  /\ count is_post (component copied_page)
     = (count is_error_toast (component copied_page)
        + count is_generated_toast (component copied_page)
        + length (pendingGen (component copied_page)))%nat
  /\ count is_get (component copied_page)
     = S (count is_generated_toast (component copied_page))
  /\ (pendingHist (component copied_page)
      <= count is_get (component copied_page))%nat.
Proof.
  split; [apply copied_page_reachable|].
  apply (page_accounting Js.lower_ascii copied_page copied_page_reachable).
Defined.

Lemma page_error_announced_witness :
  page_reachable Js.lower_ascii copied_page
  /\ (error (ui (component copied_page)) = ""
      \/ In (ToastError (error (ui (component copied_page))))
            (trace (component copied_page))).
Proof.
  split; [apply copied_page_reachable|].
  apply (page_error_announced Js.lower_ascii copied_page copied_page_reachable).
Defined.

